(** * The widget context bridge of [@mcp-lite/react]

    A shallow embedding of [packages/react/src/useWidget.ts] and of the
    parts of its environment the hook talks to: the host global
    [window.openai] (types from [types.ts]), the event target [window],
    and the hook runtime of React (state cell with its update queue,
    effects run at commit, external-store subscriptions). *)

From Stdlib Require Import ZArith List String Bool Arith Lia.
Import ListNotations.
Open Scope string_scope.
Open Scope list_scope.

Set Implicit Arguments.
Set Warnings "-register-all".

(* ================================================================== *)
(** * JavaScript values *)
(* ================================================================== *)

(** Runtime values.  Numbers are the integer-valued ones.  Arrays and
    objects carry the identity of their allocation, which is what
    [Object.is] compares. *)
Inductive JsVal : Type :=
| VUndefined
| VNull
| VBool (b : bool)
| VNum (n : Z)
| VStr (s : string)
| VArr (id : nat) (elems : list JsVal)
| VObj (id : nat) (fields : list (string * JsVal)).

(** [v === undefined], [v === null]. *)
Definition is_undefined (v : JsVal) : bool :=
  match v with VUndefined => true | _ => false end.

Definition is_null (v : JsVal) : bool :=
  match v with VNull => true | _ => false end.

(** The test of [??] and of [?.]. *)
Definition nullish (v : JsVal) : bool := is_undefined v || is_null v.

(** [a ?? b] *)
Definition coalesce (a b : JsVal) : JsVal := if nullish a then b else a.

Notation "a ?? b" := (coalesce a b) (at level 45, left associativity).

(** [Object.is], the comparison React applies to hook dependencies. *)
Definition Object_is (a b : JsVal) : bool :=
  match a, b with
  | VUndefined, VUndefined => true
  | VNull, VNull => true
  | VBool x, VBool y => Bool.eqb x y
  | VNum x, VNum y => Z.eqb x y
  | VStr x, VStr y => String.eqb x y
  | VArr i _, VArr j _ => Nat.eqb i j
  | VObj i _, VObj j _ => Nat.eqb i j
  | _, _ => false
  end.

(** What can be thrown: [new Error(message)], the [TypeError] of a
    property read on [undefined] or [null], or any value a host throws. *)
Inductive JsExn : Type :=
| Error (message : string)
| TypeError (message : string)
| Thrown (v : JsVal).

(** Outcome of evaluating a piece of synchronous code. *)
Inductive Completion (A : Type) : Type :=
| Normal (a : A)
| Throw (e : JsExn).
Arguments Normal {A} a.
Arguments Throw {A} e.

(** A promise, represented by how it settles ([Pending]: never). *)
Inductive Promise (A : Type) : Type :=
| Fulfilled (a : A)
| Rejected (e : JsExn)
| Pending.
Arguments Fulfilled {A} a.
Arguments Rejected {A} e.
Arguments Pending {A}.

(** Own property of an object literal; [undefined] when missing. *)
Fixpoint own_property (name : string) (fields : list (string * JsVal)) : JsVal :=
  match fields with
  | [] => VUndefined
  | (k, v) :: rest => if String.eqb k name then v else own_property name rest
  end.

(** [v[name]] for the property names read in this file ([globals] and
    the names of the host global's fields; none of them is a member of a
    built-in prototype). *)
Definition js_get (v : JsVal) (name : string) : Completion JsVal :=
  match v with
  | VUndefined => Throw (TypeError "Cannot read properties of undefined")
  | VNull => Throw (TypeError "Cannot read properties of null")
  | VObj _ fields => Normal (own_property name fields)
  | VBool _ | VNum _ | VStr _ | VArr _ _ => Normal VUndefined
  end.

(* ================================================================== *)
(** * State and exceptions *)
(* ================================================================== *)

(** Code that reads and writes a store [S] and may throw. *)
Definition ST (S A : Type) : Type := S -> Completion A * S.

Definition ret {S A : Type} (a : A) : ST S A := fun s => (Normal a, s).

Definition bind {S A B : Type} (c : ST S A) (k : A -> ST S B) : ST S B :=
  fun s =>
    match c s with
    | (Normal a, s') => k a s'
    | (Throw e, s') => (Throw e, s')
    end.

Definition throw {S A : Type} (e : JsExn) : ST S A := fun s => (Throw e, s).

Definition gets {S A : Type} (f : S -> A) : ST S A := fun s => (Normal (f s), s).

Definition modify {S : Type} (f : S -> S) : ST S unit := fun s => (Normal tt, f s).

(** Lift a completion computed without the store. *)
Definition complete {S A : Type} (c : Completion A) : ST S A := fun s => (c, s).

Declare Scope js_scope.
Delimit Scope js_scope with js.
Notation "x <- c ;; k" := (bind c (fun x => k))
  (at level 61, c at next level, right associativity) : js_scope.
Notation "c ;; k" := (bind c (fun _ => k))
  (at level 61, right associativity) : js_scope.
Open Scope js_scope.

(** [if (b) { c }] *)
Definition when {S : Type} (b : bool) (c : ST S unit) : ST S unit :=
  if b then c else ret tt.

(** [for (const x of xs) body(x)] *)
Fixpoint for_each {S A : Type} (xs : list A) (body : A -> ST S unit) : ST S unit :=
  match xs with
  | [] => ret tt
  | x :: rest => body x ;; for_each rest body
  end.

(** An [async] function runs its body at the call; what the body
    returns settles the promise (a returned promise is adopted), what it
    throws rejects it. *)
Definition async {S A : Type} (body : ST S (Promise A)) : ST S (Promise A) :=
  fun s =>
    match body s with
    | (Normal p, s') => (Normal p, s')
    | (Throw e, s') => (Normal (Rejected e), s')
    end.

(* ================================================================== *)
(** * The host global ([types.ts]) *)
(* ================================================================== *)

Definition Theme_light : JsVal := VStr "light".
Definition Theme_dark : JsVal := VStr "dark".
Definition DisplayMode_pip : JsVal := VStr "pip".
Definition DisplayMode_inline : JsVal := VStr "inline".
Definition DisplayMode_fullscreen : JsVal := VStr "fullscreen".

(** Argument objects of the host methods. *)
Record SendFollowUpMessageArgs : Type := { prompt : string }.
Record OpenExternalArgs : Type := { href : string }.
Record RequestDisplayModeArgs : Type := { mode : JsVal }.

(** [interface WindowOpenAI].  Every member is optional: a data field
    that is not set reads as [undefined], a method that is not set is
    [None].  A method is given by what a call of it does for the caller:
    throw, or return (the asynchronous ones return a promise;
    [openExternal] is declared to return [void]). *)
Module WindowOpenAI.
Record t : Type := mk {
  theme : JsVal;
  displayMode : JsVal;
  locale : JsVal;
  toolInput : JsVal;
  toolOutput : JsVal;
  widgetState : JsVal;
  callTool : option (string -> JsVal -> Completion (Promise JsVal));
  sendFollowUpMessage :
    option (SendFollowUpMessageArgs -> Completion (Promise JsVal));
  openExternal : option (OpenExternalArgs -> Completion unit);
  requestDisplayMode :
    option (RequestDisplayModeArgs -> Completion (Promise JsVal));
  setWidgetState : option (JsVal -> Completion (Promise JsVal))
}.
End WindowOpenAI.

(** The data fields of the host global, the keys [useOpenAiGlobal] is
    used with. *)
Inductive GlobalKey : Type :=
| Ktheme | KdisplayMode | Klocale | KtoolInput | KtoolOutput | KwidgetState.

Definition key_name (key : GlobalKey) : string :=
  match key with
  | Ktheme => "theme"
  | KdisplayMode => "displayMode"
  | Klocale => "locale"
  | KtoolInput => "toolInput"
  | KtoolOutput => "toolOutput"
  | KwidgetState => "widgetState"
  end.

(** [openai[key]] *)
Definition openai_get (o : WindowOpenAI.t) (key : GlobalKey) : JsVal :=
  match key with
  | Ktheme => WindowOpenAI.theme o
  | KdisplayMode => WindowOpenAI.displayMode o
  | Klocale => WindowOpenAI.locale o
  | KtoolInput => WindowOpenAI.toolInput o
  | KtoolOutput => WindowOpenAI.toolOutput o
  | KwidgetState => WindowOpenAI.widgetState o
  end.

(** A call the bridge made on the host, with its arguments. *)
Inductive HostCall : Type :=
| Call_callTool (name : string) (args : JsVal)
| Call_sendFollowUpMessage (a : SendFollowUpMessageArgs)
| Call_openExternal (a : OpenExternalArgs)
| Call_requestDisplayMode (a : RequestDisplayModeArgs)
| Call_setWidgetState (state : JsVal).

(* ================================================================== *)
(** * The window as an event target *)
(* ================================================================== *)

Record Event : Type := { ev_type : string; ev_detail : JsVal }.

(** A registered [handleSetGlobal] closure: its identity and the [key]
    and [onChange] it closes over.  [onChange] is a callback owned by
    React, known here by an identifier. *)
Record Listener : Type := {
  l_type : string;
  l_id : nat;
  l_key : GlobalKey;
  l_onChange : nat
}.

Record Window : Type := {
  openai : option WindowOpenAI.t;
  listeners : list Listener
}.

(** One run of an [onChange] callback, and the listener that ran it. *)
Record Invalidation : Type := { inv_listener : nat; inv_callback : nat }.

(* ================================================================== *)
(** * The component instance kept by React *)
(* ================================================================== *)

(** The closure [subscribe] returns: it closes over [handleSetGlobal]. *)
Record Unsubscribe : Type := { u_handler : nat }.

Inductive EffectSlot : Type := SyncEffect | InitEffect.

(** Hook cells of one component calling [useWidget] (possibly through
    [useWidgetState]).  React finds a hook's cell by the position of the
    call; the cells are named here. *)
Record Fiber : Type := {
  mounted : bool;
  (** [useState]: the committed value and the arguments of the
      [setLocalState] calls made since the last render *)
  localState_cell : JsVal;
  localState_queue : list JsVal;
  (** [useEffect]: the dependencies of the last commit *)
  sync_deps : list JsVal;
  init_deps : list JsVal;
  (** [useSyncExternalStore]: the live subscriptions, each with the
      [onChange] of its hook *)
  store_cleanups : list (nat * Unsubscribe)
}.

Definition unmounted : Fiber :=
  {| mounted := false; localState_cell := VUndefined; localState_queue := [];
     sync_deps := []; init_deps := []; store_cleanups := [] |}.

(** The store: [window] ([None] when [typeof window === "undefined"]),
    the log of calls made on the host, the log of [onChange] runs, the
    component instance, and the allocator of identities. *)
Record Sys : Type := {
  window : option Window;
  hostCalls : list HostCall;
  invalidations : list Invalidation;
  fiber : Fiber;
  nextId : nat
}.

Definition M : Type -> Type := ST Sys.

Definition set_window (w : option Window) (s : Sys) : Sys :=
  {| window := w; hostCalls := hostCalls s; invalidations := invalidations s;
     fiber := fiber s; nextId := nextId s |}.

Definition set_hostCalls (c : list HostCall) (s : Sys) : Sys :=
  {| window := window s; hostCalls := c; invalidations := invalidations s;
     fiber := fiber s; nextId := nextId s |}.

Definition set_invalidations (i : list Invalidation) (s : Sys) : Sys :=
  {| window := window s; hostCalls := hostCalls s; invalidations := i;
     fiber := fiber s; nextId := nextId s |}.

Definition set_fiber (f : Fiber) (s : Sys) : Sys :=
  {| window := window s; hostCalls := hostCalls s;
     invalidations := invalidations s; fiber := f; nextId := nextId s |}.

Definition set_nextId (n : nat) (s : Sys) : Sys :=
  {| window := window s; hostCalls := hostCalls s;
     invalidations := invalidations s; fiber := fiber s; nextId := n |}.

(** A fresh identity (a closure or an object literal is allocated). *)
Definition fresh : M nat :=
  n <- gets nextId ;;
  modify (set_nextId (S n)) ;;
  ret n.

(** [window.openai], for code that has checked [typeof window]. *)
Definition window_openai (s : Sys) : option WindowOpenAI.t :=
  match window s with
  | Some w => openai w
  | None => None
  end.

(** [typeof window !== "undefined"] *)
Definition window_defined (s : Sys) : bool :=
  match window s with Some _ => true | None => false end.

Definition same_listener (type : string) (id : nat) (l : Listener) : bool :=
  String.eqb (l_type l) type && Nat.eqb (l_id l) id.

(** [window.addEventListener(type, handler)]: appended, unless the same
    handler is already registered for the type. *)
Definition addEventListener (l : Listener) (w : Window) : Window :=
  if existsb (same_listener (l_type l) (l_id l)) (listeners w) then w
  else {| openai := openai w; listeners := listeners w ++ [l] |}.

(** [window.removeEventListener(type, handler)] *)
Definition removeEventListener (type : string) (id : nat) (w : Window) : Window :=
  {| openai := openai w;
     listeners := filter (fun l => negb (same_listener type id l)) (listeners w) |}.

Definition on_window (f : Window -> Window) : M unit :=
  modify (fun s =>
    match window s with
    | Some w => set_window (Some (f w)) s
    | None => s
    end).

(* ================================================================== *)
(** * [useOpenAiGlobal]: subscription and snapshot *)
(* ================================================================== *)

Definition SET_GLOBALS_EVENT_TYPE : string := "openai:set_globals".

(** [onChange()], run by listener [by_listener]. *)
Definition run_onChange (by_listener onChange : nat) : M unit :=
  modify (fun s =>
    set_invalidations
      (invalidations s ++
         [{| inv_listener := by_listener; inv_callback := onChange |}]) s).

(** [customEvent.detail?.globals[key]] *)
Definition detail_globals_at (key : GlobalKey) (event : Event) : Completion JsVal :=
  if nullish (ev_detail event) then Normal VUndefined
  else
    match js_get (ev_detail event) "globals" with
    | Normal globals => js_get globals (key_name key)
    | Throw e => Throw e
    end.

(** The body of the closure [handleSetGlobal] of listener [l]. *)
Definition handleSetGlobal (l : Listener) (event : Event) : M unit :=
  value <- complete (detail_globals_at (l_key l) event) ;;
  when (negb (is_undefined value)) (run_onChange (l_id l) (l_onChange l)).

(** The first argument of [useSyncExternalStore]. *)
Definition subscribe (key : GlobalKey) (onChange : nat) : M Unsubscribe :=
  id <- fresh ;;
  let handleSetGlobal :=
    {| l_type := SET_GLOBALS_EVENT_TYPE; l_id := id;
       l_key := key; l_onChange := onChange |} in
  defined <- gets window_defined ;;
  when defined (on_window (addEventListener handleSetGlobal)) ;;
  ret {| u_handler := id |}.

(** A call of the function [subscribe] returned. *)
Definition unsubscribe (u : Unsubscribe) : M unit :=
  defined <- gets window_defined ;;
  when defined
    (on_window (removeEventListener SET_GLOBALS_EVENT_TYPE (u_handler u))).

(** The second argument of [useSyncExternalStore]. *)
Definition getSnapshot (key : GlobalKey) : M JsVal :=
  s <- gets (fun s => s) ;;
  match window s with
  | Some w =>
      match openai w with
      | Some o => ret (openai_get o key)
      | None => ret VUndefined
      end
  | None => ret VUndefined
  end.

(** A listener is run; what it throws is reported, not propagated. *)
Definition run_listener (event : Event) (l : Listener) : M unit :=
  fun s => (Normal tt, snd (handleSetGlobal l event s)).

(** [window.dispatchEvent(event)]: the listeners registered for the
    event's type run in the order of their registration.  Without a
    window there is nothing to dispatch on. *)
Definition dispatchEvent (event : Event) : M unit :=
  s <- gets (fun s => s) ;;
  match window s with
  | Some w =>
      for_each
        (filter (fun l => String.eqb (l_type l) (ev_type event)) (listeners w))
        (run_listener event)
  | None => ret tt
  end.

(* ================================================================== *)
(** * The hook runtime of React *)
(* ================================================================== *)

(** The runtime as React documents it for production builds: a render
    runs the body of the component, its commit runs the effects the body
    scheduled, and updates of the state cell wait in a queue for the
    next render.  The double run of effects of development builds
    (StrictMode) is left out. *)

(** An effect scheduled by a render: the cleanup left by the previous
    run of the hook, and the effect itself. *)
Record PendingEffect : Type := { pe_cleanup : M unit; pe_create : M unit }.

(** A render reads and writes the store and collects effects. *)
Record RenderCtx : Type := { rc_sys : Sys; rc_effects : list PendingEffect }.

Definition Render : Type -> Type := ST RenderCtx.

Definition liftSys {A : Type} (c : M A) : Render A :=
  fun ctx =>
    let (r, s') := c (rc_sys ctx) in
    (r, {| rc_sys := s'; rc_effects := rc_effects ctx |}).

Definition schedule (e : PendingEffect) : Render unit :=
  modify (fun ctx =>
    {| rc_sys := rc_sys ctx; rc_effects := rc_effects ctx ++ [e] |}).

Definition set_localState (cell : JsVal) (queue : list JsVal) (f : Fiber) : Fiber :=
  {| mounted := mounted f; localState_cell := cell; localState_queue := queue;
     sync_deps := sync_deps f; init_deps := init_deps f;
     store_cleanups := store_cleanups f |}.

Definition get_deps (slot : EffectSlot) (f : Fiber) : list JsVal :=
  match slot with SyncEffect => sync_deps f | InitEffect => init_deps f end.

Definition set_deps (slot : EffectSlot) (deps : list JsVal) (f : Fiber) : Fiber :=
  {| mounted := mounted f; localState_cell := localState_cell f;
     localState_queue := localState_queue f;
     sync_deps := match slot with SyncEffect => deps | InitEffect => sync_deps f end;
     init_deps := match slot with InitEffect => deps | SyncEffect => init_deps f end;
     store_cleanups := store_cleanups f |}.

Definition set_store_cleanups (c : list (nat * Unsubscribe)) (f : Fiber) : Fiber :=
  {| mounted := mounted f; localState_cell := localState_cell f;
     localState_queue := localState_queue f;
     sync_deps := sync_deps f; init_deps := init_deps f; store_cleanups := c |}.

Definition set_mounted (f : Fiber) : Fiber :=
  {| mounted := true; localState_cell := localState_cell f;
     localState_queue := localState_queue f;
     sync_deps := sync_deps f; init_deps := init_deps f;
     store_cleanups := store_cleanups f |}.

(** The setter [useState] hands out: the update is queued for the next
    render. *)
Definition setLocalState (v : JsVal) : M unit :=
  modify (fun s =>
    set_fiber
      (set_localState (localState_cell (fiber s))
         (localState_queue (fiber s) ++ [v]) (fiber s)) s).

(** [useState(initial)]: the first render stores [initial]; a later one
    applies the queued updates, of which the last one wins (every update
    in this file is a value, never an updater of React's). *)
Definition useState (initial : JsVal) : Render (JsVal * (JsVal -> M unit)) :=
  liftSys (
    f <- gets fiber ;;
    let value :=
      if mounted f then last (localState_queue f) (localState_cell f)
      else initial in
    modify (fun s => set_fiber (set_localState value [] (fiber s)) s) ;;
    ret (value, setLocalState)).

(** React's [areHookInputsEqual]. *)
Fixpoint deps_equal (prev next : list JsVal) : bool :=
  match prev, next with
  | [], [] => true
  | p :: prev', n :: next' => Object_is p n && deps_equal prev' next'
  | _, _ => false
  end.

(** [useEffect(effect, deps)]: scheduled on the first render, and on a
    later one when a dependency changed. *)
Definition useEffect (slot : EffectSlot) (effect : M unit) (deps : list JsVal)
  : Render unit :=
  f <- liftSys (gets fiber) ;;
  if mounted f && deps_equal (get_deps slot f) deps then ret tt
  else
    liftSys (modify (fun s => set_fiber (set_deps slot deps (fiber s)) s)) ;;
    schedule {| pe_cleanup := ret tt; pe_create := effect |}.

(** [useCallback(callback, deps)] returns the callback of an earlier
    render while [deps] are unchanged.  Every callback of this file closes
    over its [deps] only, so the earlier closure and the new one behave
    alike, and the new one is returned. *)
Definition useCallback {F : Type} (callback : F) (deps : list JsVal) : Render F :=
  ret callback.

(** The effect of a store hook: the subscription is kept in the
    hook's cell, named by the hook's [onChange]; the cleanup calls what
    the previous [subscribe] returned. *)
Definition store_cleanup (onChange : nat) : M unit :=
  cells <- gets (fun s => store_cleanups (fiber s)) ;;
  for_each (filter (fun c => Nat.eqb (fst c) onChange) cells)
    (fun c => unsubscribe (snd c)) ;;
  modify (fun s =>
    set_fiber
      (set_store_cleanups
         (filter (fun c => negb (Nat.eqb (fst c) onChange))
            (store_cleanups (fiber s))) (fiber s)) s).

Definition store_subscribe (subscribe : nat -> M Unsubscribe) (onChange : nat)
  : M unit :=
  u <- subscribe onChange ;;
  modify (fun s =>
    set_fiber
      (set_store_cleanups (store_cleanups (fiber s) ++ [(onChange, u)])
         (fiber s)) s).

(** [useSyncExternalStore(subscribe, getSnapshot)] returns the snapshot
    and subscribes at commit.  The hook subscribes again whenever
    [subscribe] is a new function, which an inline arrow function is on
    every render: the previous subscription of the hook is cleaned up and
    a new one made.  [onChange] is React's callback of this hook. *)
Definition useSyncExternalStore
    (subscribe : nat -> M Unsubscribe) (getSnapshot : M JsVal) (onChange : nat)
  : Render JsVal :=
  value <- liftSys getSnapshot ;;
  schedule
    {| pe_cleanup := store_cleanup onChange;
       pe_create := store_subscribe subscribe onChange |} ;;
  ret value.

(** Commit: the cleanups run, then the effects, each in the order of
    the hooks; the instance is mounted from then on. *)
Definition commit (effects : list PendingEffect) : M unit :=
  for_each effects pe_cleanup ;;
  for_each effects pe_create ;;
  modify (fun s => set_fiber (set_mounted (fiber s)) s).

(** One render of a component, followed by its commit. *)
Definition render {A : Type} (component : Render A) : M A :=
  fun s =>
    match component {| rc_sys := s; rc_effects := [] |} with
    | (Normal a, ctx) => (commit (rc_effects ctx) ;; ret a) (rc_sys ctx)
    | (Throw e, ctx) => (Throw e, rc_sys ctx)
    end.

(* ================================================================== *)
(** * [useWidget.ts] *)
(* ================================================================== *)

(** The argument of [setState]: [typeof stateOrUpdater === "function"]
    tells an updater from a state. *)
Inductive StateOrUpdater : Type :=
| State (v : JsVal)
| Updater (f : JsVal -> JsVal).

(** [interface UseWidgetResult] *)
Module UseWidgetResult.
Record t : Type := mk {
  props : JsVal;
  theme : JsVal;
  displayMode : JsVal;
  locale : JsVal;
  state : JsVal;
  setState : StateOrUpdater -> M (Promise JsVal);
  callTool : string -> JsVal -> M (Promise JsVal);
  sendFollowUpMessage : string -> M (Promise JsVal);
  openExternal : string -> M unit;
  requestDisplayMode : JsVal -> M (Promise JsVal);
  isAvailable : bool
}.
End UseWidgetResult.

(** React's [onChange] of the store hook that reads [key]. *)
Definition onChange_of (key : GlobalKey) : nat :=
  match key with
  | KtoolInput => 0
  | KwidgetState => 1
  | Ktheme => 2
  | KdisplayMode => 3
  | Klocale => 4
  | KtoolOutput => 5
  end.

Definition useOpenAiGlobal (key : GlobalKey) : Render JsVal :=
  useSyncExternalStore (subscribe key) (getSnapshot key) (onChange_of key).

(** [window.openai?.method], [None] also when [typeof window ===
    "undefined"]. *)
Definition openai_method {F : Type}
    (method : WindowOpenAI.t -> option F) (s : Sys) : option F :=
  match window s with
  | None => None
  | Some w =>
      match openai w with
      | None => None
      | Some o => method o
      end
  end.

(** A call of a host method: the host sees the call, the caller gets
    what the method does. *)
Definition host_call {A : Type} (c : HostCall) (result : Completion A) : M A :=
  modify (fun s => set_hostCalls (hostCalls s ++ [c]) s) ;;
  complete result.

(** A fresh object literal. *)
Definition object_literal (fields : list (string * JsVal)) : M JsVal :=
  id <- fresh ;;
  ret (VObj id fields).

Definition callTool_impl (name : string) (args : JsVal) : M (Promise JsVal) :=
  async (
    method <- gets (openai_method WindowOpenAI.callTool) ;;
    match method with
    | None => throw (Error "window.openai.callTool is not available")
    | Some callTool => host_call (Call_callTool name args) (callTool name args)
    end).

Definition sendFollowUpMessage_impl (prompt : string) : M (Promise JsVal) :=
  async (
    method <- gets (openai_method WindowOpenAI.sendFollowUpMessage) ;;
    match method with
    | None => throw (Error "window.openai.sendFollowUpMessage is not available")
    | Some sendFollowUpMessage =>
        let a := {| prompt := prompt |} in
        host_call (Call_sendFollowUpMessage a) (sendFollowUpMessage a)
    end).

Definition openExternal_impl (href : string) : M unit :=
  method <- gets (openai_method WindowOpenAI.openExternal) ;;
  match method with
  | None => throw (Error "window.openai.openExternal is not available")
  | Some openExternal =>
      let a := {| href := href |} in
      host_call (Call_openExternal a) (openExternal a)
  end.

Definition requestDisplayMode_impl (mode : JsVal) : M (Promise JsVal) :=
  async (
    method <- gets (openai_method WindowOpenAI.requestDisplayMode) ;;
    match method with
    | None => throw (Error "window.openai.requestDisplayMode is not available")
    | Some requestDisplayMode =>
        let a := {| mode := mode |} in
        host_call (Call_requestDisplayMode a) (requestDisplayMode a)
    end).

(** The body of [setState], for the [localState] and [setLocalState] of
    the render that made the closure. *)
Definition setState_impl (localState : JsVal) (setLocalState : JsVal -> M unit)
    (stateOrUpdater : StateOrUpdater) : M (Promise JsVal) :=
  async (
    let newState :=
      match stateOrUpdater with
      | Updater f => f localState
      | State v => v
      end in
    method <- gets (openai_method WindowOpenAI.setWidgetState) ;;
    match method with
    | None =>
        setLocalState newState ;;
        ret (Fulfilled VUndefined)
    | Some setWidgetState =>
        setLocalState newState ;;
        host_call (Call_setWidgetState newState) (setWidgetState newState)
    end).

(** [toolInput ?? defaultProps ?? {}] *)
Definition props_of (toolInput defaultProps : JsVal) : M JsVal :=
  if nullish (toolInput ?? defaultProps) then object_literal []
  else ret (toolInput ?? defaultProps).

(** The effect that syncs the mirror from [window.openai]. *)
Definition sync_effect (widgetState : JsVal) (setLocalState : JsVal -> M unit)
  : M unit :=
  when (negb (is_undefined widgetState)) (setLocalState widgetState).

Definition useWidget (defaultProps : JsVal) : Render UseWidgetResult.t :=
  isAvailable <-
    liftSys (gets (fun s =>
      window_defined s &&
      match window_openai s with Some _ => true | None => false end)) ;;
  toolInput <- useOpenAiGlobal KtoolInput ;;
  widgetState <- useOpenAiGlobal KwidgetState ;;
  theme <- useOpenAiGlobal Ktheme ;;
  displayMode <- useOpenAiGlobal KdisplayMode ;;
  locale <- useOpenAiGlobal Klocale ;;
  st <- useState (widgetState ?? VNull) ;;
  let localState := fst st in
  let setLocalState := snd st in
  useEffect SyncEffect (sync_effect widgetState setLocalState) [widgetState] ;;
  callTool <- useCallback callTool_impl [] ;;
  sendFollowUpMessage <- useCallback sendFollowUpMessage_impl [] ;;
  openExternal <- useCallback openExternal_impl [] ;;
  requestDisplayMode <- useCallback requestDisplayMode_impl [] ;;
  setState <- useCallback (setState_impl localState setLocalState) [localState] ;;
  props <- liftSys (props_of toolInput defaultProps) ;;
  ret {| UseWidgetResult.props := props;
         UseWidgetResult.theme := theme ?? VStr "light";
         UseWidgetResult.displayMode := displayMode ?? VStr "inline";
         UseWidgetResult.locale := locale ?? VStr "en";
         UseWidgetResult.state := localState;
         UseWidgetResult.setState := setState;
         UseWidgetResult.callTool := callTool;
         UseWidgetResult.sendFollowUpMessage := sendFollowUpMessage;
         UseWidgetResult.openExternal := openExternal;
         UseWidgetResult.requestDisplayMode := requestDisplayMode;
         UseWidgetResult.isAvailable := isAvailable |}.

Definition useWidgetProps (defaultProps : JsVal) : Render JsVal :=
  r <- useWidget defaultProps ;;
  ret (UseWidgetResult.props r).

Definition useWidgetTheme : Render JsVal :=
  r <- useWidget VUndefined ;;
  ret (UseWidgetResult.theme r).

(** The effect of [useWidgetState] that applies the default. *)
Definition init_effect (state defaultState : JsVal)
    (setState : StateOrUpdater -> M (Promise JsVal)) : M unit :=
  persist <- gets (openai_method WindowOpenAI.setWidgetState) ;;
  when (is_null state && negb (is_undefined defaultState) &&
        match persist with Some _ => true | None => false end)
    (setState (State defaultState) ;; ret tt).

Definition useWidgetState (defaultState : JsVal)
  : Render (JsVal * (StateOrUpdater -> M (Promise JsVal))) :=
  r <- useWidget VUndefined ;;
  let state := UseWidgetResult.state r in
  let setState := UseWidgetResult.setState r in
  useEffect InitEffect (init_effect state defaultState setState) [] ;;
  ret (state, setState).

(* ================================================================== *)
(** * Running code *)
(* ================================================================== *)

(** The store a computation leaves. *)
Definition exec {S A : Type} (c : ST S A) (s : S) : S := snd (c s).

(** What the environment does to the event target between two moments:
    components subscribe and unsubscribe, the host broadcasts. *)
Inductive Op : Type :=
| OpSubscribe (key : GlobalKey) (onChange : nat)
| OpUnsubscribe (u : Unsubscribe)
| OpDispatch (event : Event).

Definition run_op (op : Op) : M unit :=
  match op with
  | OpSubscribe key onChange => subscribe key onChange ;; ret tt
  | OpUnsubscribe u => unsubscribe u
  | OpDispatch event => dispatchEvent event
  end.

Definition run_ops (ops : list Op) : M unit := for_each ops run_op.

(** The listeners registered on the window ([[]] without a window). *)
Definition registered (s : Sys) : list Listener :=
  match window s with
  | Some w => listeners w
  | None => []
  end.

(** The [onChange] runs logged after the first [n]. *)
Definition invalidations_since (n : nat) (s : Sys) : list Invalidation :=
  skipn n (invalidations s).

(** The run of [onChange] a listener makes. *)
Definition inv_of (l : Listener) : Invalidation :=
  {| inv_listener := l_id l; inv_callback := l_onChange l |}.

(** Whether a listener's [handleSetGlobal] gets to [onChange()] on an
    event: the value read for its key is not [undefined]. *)
Definition fires (event : Event) (l : Listener) : bool :=
  match detail_globals_at (l_key l) event with
  | Normal value => negb (is_undefined value)
  | Throw _ => false
  end.

(** Identities are handed out in increasing order: every registered
    listener was allocated before [nextId]. *)
Definition ids_below (s : Sys) : Prop :=
  Forall (fun l => l_id l < nextId s) (registered s).

(** A broadcast whose [detail.globals] is the object literal [fields]. *)
Definition set_globals_event (detail_id globals_id : nat)
    (fields : list (string * JsVal)) : Event :=
  {| ev_type := SET_GLOBALS_EVENT_TYPE;
     ev_detail := VObj detail_id [("globals", VObj globals_id fields)] |}.

(** Every run of [onChange] between [s] and [s'] satisfies [P]. *)
Definition runs_between (P : Invalidation -> Prop) (s s' : Sys) : Prop :=
  exists new,
    invalidations s' = invalidations s ++ new /\ Forall P new.

(** *** A live subscription: the listeners carrying its identity are
    its own. *)
Definition owned (id : nat) (key : GlobalKey) (s : Sys) : Prop :=
  id < nextId s /\
  Forall
    (fun l => l_id l = id ->
              l_key l = key /\ l_type l = SET_GLOBALS_EVENT_TYPE)
    (registered s).

(** *** A subscription that was cleaned up: no listener carries its
    identity. *)
Definition gone (id : nat) (s : Sys) : Prop :=
  id < nextId s /\ Forall (fun l => l_id l <> id) (registered s).

(* ================================================================== *)
(** * What the hooks see of the store *)
(* ================================================================== *)

(** The store without the registered listeners and the subscription
    cells: the part the values and the actions of [useWidget] depend on. *)
Record Core : Type := {
  c_window : bool;
  c_openai : option WindowOpenAI.t;
  c_hostCalls : list HostCall;
  c_invalidations : list Invalidation;
  c_mounted : bool;
  c_cell : JsVal;
  c_queue : list JsVal;
  c_sync_deps : list JsVal;
  c_init_deps : list JsVal;
  c_nextId : nat
}.

Definition core (s : Sys) : Core :=
  {| c_window := window_defined s;
     c_openai := window_openai s;
     c_hostCalls := hostCalls s;
     c_invalidations := invalidations s;
     c_mounted := mounted (fiber s);
     c_cell := localState_cell (fiber s);
     c_queue := localState_queue (fiber s);
     c_sync_deps := sync_deps (fiber s);
     c_init_deps := init_deps (fiber s);
     c_nextId := nextId s |}.

(** A computation whose value and whose effect on the core depend on
    the core only. *)
Definition acts {A : Type} (c : M A)
    (value : Core -> Completion A) (effect : Core -> Core) : Prop :=
  forall s, exists s', c s = (value (core s), s') /\ core s' = effect (core s).

(** [window.openai[key]] as [getSnapshot] reads it. *)
Definition snapshot (c : Core) (key : GlobalKey) : JsVal :=
  match c_openai c with
  | Some o => openai_get o key
  | None => VUndefined
  end.

(** The value [useState] returns in a render. *)
Definition rendered_state (c : Core) : JsVal :=
  if c_mounted c then last (c_queue c) (c_cell c)
  else snapshot c KwidgetState ?? VNull.

(** Whether a render schedules the effect of a slot. *)
Definition effect_runs (c : Core) (deps_before deps : list JsVal) : bool :=
  negb (c_mounted c && deps_equal deps_before deps).

(** The effects a render of [useWidget] schedules. *)
Definition store_effect (key : GlobalKey) : PendingEffect :=
  {| pe_cleanup := store_cleanup (onChange_of key);
     pe_create := store_subscribe (subscribe key) (onChange_of key) |}.

Definition widget_store_effects : list PendingEffect :=
  map store_effect [KtoolInput; KwidgetState; Ktheme; KdisplayMode; Klocale].

Definition widget_effects (c : Core) : list PendingEffect :=
  widget_store_effects ++
  if effect_runs c (c_sync_deps c) [snapshot c KwidgetState]
  then [{| pe_cleanup := ret tt;
           pe_create := sync_effect (snapshot c KwidgetState) setLocalState |}]
  else [].

(** The value a render of [useWidget] returns. *)
Definition widget_result (defaultProps : JsVal) (c : Core) : UseWidgetResult.t :=
  let toolInput := snapshot c KtoolInput in
  {| UseWidgetResult.props :=
       if nullish (toolInput ?? defaultProps) then VObj (c_nextId c) []
       else toolInput ?? defaultProps;
     UseWidgetResult.theme := snapshot c Ktheme ?? VStr "light";
     UseWidgetResult.displayMode := snapshot c KdisplayMode ?? VStr "inline";
     UseWidgetResult.locale := snapshot c Klocale ?? VStr "en";
     UseWidgetResult.state := rendered_state c;
     UseWidgetResult.setState := setState_impl (rendered_state c) setLocalState;
     UseWidgetResult.callTool := callTool_impl;
     UseWidgetResult.sendFollowUpMessage := sendFollowUpMessage_impl;
     UseWidgetResult.openExternal := openExternal_impl;
     UseWidgetResult.requestDisplayMode := requestDisplayMode_impl;
     UseWidgetResult.isAvailable :=
       c_window c && match c_openai c with Some _ => true | None => false end |}.

(** The core after the body of [useWidget] ran, before the commit. *)
Definition widget_body_core (defaultProps : JsVal) (c : Core) : Core :=
  {| c_window := c_window c;
     c_openai := c_openai c;
     c_hostCalls := c_hostCalls c;
     c_invalidations := c_invalidations c;
     c_mounted := c_mounted c;
     c_cell := rendered_state c;
     c_queue := [];
     c_sync_deps :=
       if effect_runs c (c_sync_deps c) [snapshot c KwidgetState]
       then [snapshot c KwidgetState] else c_sync_deps c;
     c_init_deps := c_init_deps c;
     c_nextId :=
       if nullish (snapshot c KtoolInput ?? defaultProps) then S (c_nextId c)
       else c_nextId c |}.

(** Changes of the core. *)
Definition bump (k : nat) (c : Core) : Core :=
  {| c_window := c_window c; c_openai := c_openai c;
     c_hostCalls := c_hostCalls c; c_invalidations := c_invalidations c;
     c_mounted := c_mounted c; c_cell := c_cell c; c_queue := c_queue c;
     c_sync_deps := c_sync_deps c; c_init_deps := c_init_deps c;
     c_nextId := k + c_nextId c |}.

Definition enqueue (v : JsVal) (c : Core) : Core :=
  {| c_window := c_window c; c_openai := c_openai c;
     c_hostCalls := c_hostCalls c; c_invalidations := c_invalidations c;
     c_mounted := c_mounted c; c_cell := c_cell c; c_queue := c_queue c ++ [v];
     c_sync_deps := c_sync_deps c; c_init_deps := c_init_deps c;
     c_nextId := c_nextId c |}.

Definition log_call (h : HostCall) (c : Core) : Core :=
  {| c_window := c_window c; c_openai := c_openai c;
     c_hostCalls := c_hostCalls c ++ [h]; c_invalidations := c_invalidations c;
     c_mounted := c_mounted c; c_cell := c_cell c; c_queue := c_queue c;
     c_sync_deps := c_sync_deps c; c_init_deps := c_init_deps c;
     c_nextId := c_nextId c |}.

Definition mount (c : Core) : Core :=
  {| c_window := c_window c; c_openai := c_openai c;
     c_hostCalls := c_hostCalls c; c_invalidations := c_invalidations c;
     c_mounted := true; c_cell := c_cell c; c_queue := c_queue c;
     c_sync_deps := c_sync_deps c; c_init_deps := c_init_deps c;
     c_nextId := c_nextId c |}.

Definition set_init_deps (deps : list JsVal) (c : Core) : Core :=
  {| c_window := c_window c; c_openai := c_openai c;
     c_hostCalls := c_hostCalls c; c_invalidations := c_invalidations c;
     c_mounted := c_mounted c; c_cell := c_cell c; c_queue := c_queue c;
     c_sync_deps := c_sync_deps c; c_init_deps := deps;
     c_nextId := c_nextId c |}.

(** [window.openai?.setWidgetState] *)
Definition persistence (c : Core) : option (JsVal -> Completion (Promise JsVal)) :=
  match c_openai c with
  | Some o => WindowOpenAI.setWidgetState o
  | None => None
  end.

(** The state [setState] computes from its argument. *)
Definition new_state (localState : JsVal) (stateOrUpdater : StateOrUpdater) : JsVal :=
  match stateOrUpdater with
  | Updater f => f localState
  | State v => v
  end.

(** The promise an [async] function makes of a call's completion. *)
Definition adopted {A : Type} (c : Completion (Promise A)) : Promise A :=
  match c with
  | Normal p => p
  | Throw e => Rejected e
  end.

(** What a call of [setState] returns and does. *)
Definition setState_value (newState : JsVal) (c : Core) : Promise JsVal :=
  match persistence c with
  | Some setWidgetState => adopted (setWidgetState newState)
  | None => Fulfilled VUndefined
  end.

Definition setState_effect (newState : JsVal) (c : Core) : Core :=
  match persistence c with
  | Some _ => log_call (Call_setWidgetState newState) (enqueue newState c)
  | None => enqueue newState c
  end.

(** What the effects of a render do. *)
Definition sync_effect_core (widgetState : JsVal) (c : Core) : Core :=
  if is_undefined widgetState then c else enqueue widgetState c.

Definition init_effect_core (state defaultState : JsVal) (c : Core) : Core :=
  if is_null state && negb (is_undefined defaultState) &&
     match persistence c with Some _ => true | None => false end
  then setState_effect defaultState c
  else c.

(** The core after a render of [useWidget] and its commit. *)
Definition after_useWidget (defaultProps : JsVal) (c : Core) : Core :=
  let widgetState := snapshot c KwidgetState in
  let subscribed := bump 5 (widget_body_core defaultProps c) in
  mount
    (if effect_runs c (c_sync_deps c) [widgetState]
     then sync_effect_core widgetState subscribed
     else subscribed).

(** The core after a render of [useWidgetState] and its commit. *)
Definition after_useWidgetState (defaultState : JsVal) (c : Core) : Core :=
  let widgetState := snapshot c KwidgetState in
  let runs_init := effect_runs c (c_init_deps c) [] in
  let body := widget_body_core VUndefined c in
  let subscribed :=
    bump 5 (if runs_init then set_init_deps [] body else body) in
  let synced :=
    if effect_runs c (c_sync_deps c) [widgetState]
    then sync_effect_core widgetState subscribed
    else subscribed in
  mount
    (if runs_init then init_effect_core (rendered_state c) defaultState synced
     else synced).

(** The effects a render of [useWidgetState] schedules. *)
Definition widgetState_effects (defaultState : JsVal) (c : Core) : list PendingEffect :=
  widget_effects c ++
  if effect_runs c (c_init_deps c) []
  then [{| pe_cleanup := ret tt;
           pe_create :=
             init_effect (rendered_state c) defaultState
               (setState_impl (rendered_state c) setLocalState) |}]
  else [].

(** The error of a missing host capability. *)
Definition HostUnavailable (method : string) : JsExn :=
  Error (String.append "window.openai."
           (String.append method " is not available")).

(** The updater [prev => prev + 1] on the arguments it meets in this
    file: a number, or [null], which [+] reads as [0]. *)
Definition increment (prev : JsVal) : JsVal :=
  match prev with
  | VNum n => VNum (n + 1)
  | VNull => VNum 1
  | _ => prev
  end.

(** A page that was just loaded: nothing registered, nothing called,
    the component not yet mounted. *)
Definition page (host : option WindowOpenAI.t) : Sys :=
  {| window := Some {| openai := host; listeners := [] |};
     hostCalls := [];
     invalidations := [];
     fiber := unmounted;
     nextId := 0 |}.

(** A host global with nothing set. *)
Definition empty_host : WindowOpenAI.t :=
  WindowOpenAI.mk VUndefined VUndefined VUndefined VUndefined VUndefined
    VUndefined None None None None None.

(* ================================================================== *)
(** * The subscriptions of a mounted component *)
(* ================================================================== *)

(** The fields [useWidget] reads with [useOpenAiGlobal], in the order
    of the calls. *)
Definition widget_keys : list GlobalKey :=
  [KtoolInput; KwidgetState; Ktheme; KdisplayMode; Klocale].

(** The listeners the store hooks of [keys] register when the first of
    them gets the identity [n], and the cells that keep their cleanups. *)
Fixpoint listeners_from (n : nat) (keys : list GlobalKey) : list Listener :=
  match keys with
  | [] => []
  | key :: rest =>
      {| l_type := SET_GLOBALS_EVENT_TYPE; l_id := n; l_key := key;
         l_onChange := onChange_of key |} :: listeners_from (S n) rest
  end.

Fixpoint cells_from (n : nat) (keys : list GlobalKey) : list (nat * Unsubscribe) :=
  match keys with
  | [] => []
  | key :: rest =>
      (onChange_of key, {| u_handler := n |}) :: cells_from (S n) rest
  end.

(** [k] renders of a component, one after the other. *)
Fixpoint renders {A : Type} (k : nat) (component : Render A) : M unit :=
  match k with
  | 0 => ret tt
  | S k' => render component ;; renders k' component
  end.

(** The component is subscribed, beside the listeners [base] that are
    not its own: its five listeners are the last ones registered, and
    its cells hold their cleanups. *)
Definition subscribed (base : list Listener) (s : Sys) : Prop :=
  exists n,
    registered s = base ++ listeners_from n widget_keys /\
    store_cleanups (fiber s) = cells_from n widget_keys /\
    Forall (fun l => l_id l < n) base /\
    n + 5 = nextId s.

(** Pages for the examples: a host global that holds a [widgetState]
    and nothing else, and a component that is already mounted. *)
Definition host_with_state (v : JsVal) : WindowOpenAI.t :=
  WindowOpenAI.mk VUndefined VUndefined VUndefined VUndefined VUndefined
    v None None None None None.

Definition mounted_page (host : option WindowOpenAI.t) (cell : JsVal)
    (queue deps : list JsVal) : Sys :=
  {| window := Some {| openai := host; listeners := [] |};
     hostCalls := [];
     invalidations := [];
     fiber := {| mounted := true; localState_cell := cell;
                 localState_queue := queue; sync_deps := deps;
                 init_deps := []; store_cleanups := [] |};
     nextId := 0 |}.

(* ================================================================== *)
(** * More of JavaScript: [||], [===], [find], [await], [try] *)
(* ================================================================== *)

(** [ToBoolean], the test of [||], [!] and [if]. *)
Definition truthy (v : JsVal) : bool :=
  match v with
  | VUndefined | VNull => false
  | VBool b => b
  | VNum n => negb (Z.eqb n 0)
  | VStr s => negb (String.eqb s "")
  | VArr _ _ | VObj _ _ => true
  end.

(** [a || b], for a [b] whose evaluation does nothing. *)
Definition or_else (a b : JsVal) : JsVal := if truthy a then a else b.

(** [a === b].  On the values of [JsVal], which has no [NaN] and no
    [-0], it is [Object.is]. *)
Definition strict_equals (a b : JsVal) : bool := Object_is a b.

(** [v?.name].  The names read below ([city], [content], [type],
    [text], [uri]) are no members of a built-in prototype, so [js_get]
    reads them. *)
Definition optional_get (v : JsVal) (name : string) : Completion JsVal :=
  if nullish v then Normal VUndefined else js_get v name.

(** [Array.prototype.find]: the first element the predicate accepts,
    [undefined] when there is none; what the predicate throws goes to
    the caller. *)
Fixpoint find_first (predicate : JsVal -> Completion bool)
    (elems : list JsVal) : Completion JsVal :=
  match elems with
  | [] => Normal VUndefined
  | c :: rest =>
      match predicate c with
      | Throw e => Throw e
      | Normal true => Normal c
      | Normal false => find_first predicate rest
      end
  end.

(** [content.find(predicate)]: only an array has the method; a value of
    [JsVal] that is not an array has no callable [find]. *)
Definition js_find (content : JsVal) (predicate : JsVal -> Completion bool)
  : Completion JsVal :=
  match content with
  | VArr _ elems => find_first predicate elems
  | VUndefined => Throw (TypeError "Cannot read properties of undefined")
  | VNull => Throw (TypeError "Cannot read properties of null")
  | VBool _ | VNum _ | VStr _ | VObj _ _ =>
      Throw (TypeError "content.find is not a function")
  end.

(** [(c) => c.type === type] *)
Definition has_type (type : string) (c : JsVal) : Completion bool :=
  match js_get c "type" with
  | Normal t => Normal (strict_equals t (VStr type))
  | Throw e => Throw e
  end.

(** How a piece of an [async] function's body ends: with a value, with
    an exception, or suspended at an [await] on a promise that does not
    settle. *)
Inductive Outcome (A : Type) : Type :=
| Returned (a : A)
| Raised (e : JsExn)
| Suspended.
Arguments Returned {A} a.
Arguments Raised {A} e.
Arguments Suspended {A}.

Definition Job (S A : Type) : Type := S -> Outcome A * S.

(** Synchronous code inside the body. *)
Definition run {S A : Type} (c : ST S A) : Job S A :=
  fun s =>
    match c s with
    | (Normal a, s') => (Returned a, s')
    | (Throw e, s') => (Raised e, s')
    end.

Definition job_bind {S A B : Type} (c : Job S A) (k : A -> Job S B) : Job S B :=
  fun s =>
    match c s with
    | (Returned a, s') => k a s'
    | (Raised e, s') => (Raised e, s')
    | (Suspended, s') => (Suspended, s')
    end.

Declare Scope job_scope.
Delimit Scope job_scope with job.
Notation "x <- c ;; k" := (job_bind c (fun x => k))
  (at level 61, c at next level, right associativity) : job_scope.
Notation "c ;; k" := (job_bind c (fun _ => k))
  (at level 61, right associativity) : job_scope.

(** [await p] *)
Definition await {S A : Type} (p : Promise A) : Job S A :=
  fun s =>
    match p with
    | Fulfilled a => (Returned a, s)
    | Rejected e => (Raised e, s)
    | Pending => (Suspended, s)
    end.

(** [try { body } catch (error) { handler }] *)
Definition try_catch {S A : Type} (body : Job S A) (handler : JsExn -> Job S A)
  : Job S A :=
  fun s =>
    match body s with
    | (Raised e, s') => handler e s'
    | (Returned a, s') => (Returned a, s')
    | (Suspended, s') => (Suspended, s')
    end.

(** [try { body } finally { finalizer }]: the finalizer runs when the
    body is left, with a value or with an exception. *)
Definition try_finally {S A : Type} (body : Job S A) (finalizer : Job S unit)
  : Job S A :=
  fun s =>
    match body s with
    | (Suspended, s') => (Suspended, s')
    | (outcome, s') =>
        match finalizer s' with
        | (Returned _, s'') => (outcome, s'')
        | (Raised e, s'') => (Raised e, s'')
        | (Suspended, s'') => (Suspended, s'')
        end
    end.

(** An [async] function whose body awaits: the body runs at the call,
    up to its end or to an [await] that does not settle. *)
Definition async_job {S A : Type} (body : Job S A) : ST S (Promise A) :=
  fun s =>
    match body s with
    | (Returned a, s') => (Normal (Fulfilled a), s')
    | (Raised e, s') => (Normal (Rejected e), s')
    | (Suspended, s') => (Normal Pending, s')
    end.

(* ================================================================== *)
(** * The example widget ([WeatherWidget.tsx]) *)
(* ================================================================== *)

(** What the handlers of the widget do besides calling the hook's
    actions: [alert], the setters of its two [useState] cells, and
    [console.error]. *)
Inductive UiEffect : Type :=
| Alert (message : string)
| SetLoading (loading : bool)
| SetForecast (forecast : JsVal)
| ConsoleError (message : string) (error : JsExn).

(** The store of the hook with the log of these. *)
Record App : Type := { app_sys : Sys; app_ui : list UiEffect }.

Definition on_sys {A : Type} (c : M A) : ST App A :=
  fun a =>
    let (r, s') := c (app_sys a) in
    (r, {| app_sys := s'; app_ui := app_ui a |}).

Definition ui (e : UiEffect) : ST App unit :=
  modify (fun a => {| app_sys := app_sys a; app_ui := app_ui a ++ [e] |}).

(** [result.content.find((c) => c.type === "text")?.text ||
    "No forecast available"] *)
Definition forecast_of (result : JsVal) : Completion JsVal :=
  match js_get result "content" with
  | Throw e => Throw e
  | Normal content =>
      match js_find content (has_type "text") with
      | Throw e => Throw e
      | Normal found =>
          match optional_get found "text" with
          | Throw e => Throw e
          | Normal text => Normal (or_else text (VStr "No forecast available"))
          end
      end
  end.

(** [handleFetchForecast], for the hook result of the render that made
    the closure. *)
Definition handleFetchForecast (r : UseWidgetResult.t) : ST App (Promise unit) :=
  async_job (
    if negb (UseWidgetResult.isAvailable r) then
      run (ui (Alert "MCP APIs not available in standalone mode"))
    else
      (run (ui (SetLoading true)) ;;
       try_finally
         (try_catch
            (city <- run (complete (js_get (UseWidgetResult.props r) "city")) ;;
             args <- run (on_sys
                       (object_literal [("city", city); ("days", VNum 7)])) ;;
             p <- run (on_sys (UseWidgetResult.callTool r "get-forecast" args)) ;;
             result <- await p ;;
             forecast <- run (complete (forecast_of result)) ;;
             run (ui (SetForecast forecast)))
            (fun error =>
               run (ui (ConsoleError "Failed to fetch forecast:" error)) ;;
               run (ui (SetForecast (VStr "Error fetching forecast")))))
         (run (ui (SetLoading false))))%job).

(** The text of the [alert]. *)
Definition standalone_notice : string :=
  "MCP APIs not available in standalone mode".

(** What [handleFetchForecast] does when the flag is set, case by case. *)
Definition fetch_failed (error : JsExn) : list UiEffect :=
  [SetLoading true; ConsoleError "Failed to fetch forecast:" error;
   SetForecast (VStr "Error fetching forecast"); SetLoading false].

Definition fetch_args (city : JsVal) (a : App) : JsVal :=
  VObj (nextId (app_sys a)) [("city", city); ("days", VNum 7)].

Definition fetch_called (city : JsVal) (a : App) : Sys :=
  set_hostCalls
    (hostCalls (app_sys a) ++ [Call_callTool "get-forecast" (fetch_args city a)])
    (set_nextId (S (nextId (app_sys a))) (app_sys a)).

Definition fetch_run (city : JsVal) (a : App) : Promise unit * App :=
  match openai_method WindowOpenAI.callTool (app_sys a) with
  | None =>
      (Fulfilled tt,
       {| app_sys := set_nextId (S (nextId (app_sys a))) (app_sys a);
          app_ui := app_ui a ++ fetch_failed (HostUnavailable "callTool") |})
  | Some f =>
      match f "get-forecast" (fetch_args city a) with
      | Normal (Fulfilled result) =>
          match forecast_of result with
          | Normal forecast =>
              (Fulfilled tt,
               {| app_sys := fetch_called city a;
                  app_ui := app_ui a ++
                    [SetLoading true; SetForecast forecast; SetLoading false] |})
          | Throw e =>
              (Fulfilled tt,
               {| app_sys := fetch_called city a;
                  app_ui := app_ui a ++ fetch_failed e |})
          end
      | Normal (Rejected e) | Throw e =>
          (Fulfilled tt,
           {| app_sys := fetch_called city a;
              app_ui := app_ui a ++ fetch_failed e |})
      | Normal Pending =>
          (Pending,
           {| app_sys := fetch_called city a;
              app_ui := app_ui a ++ [SetLoading true] |})
      end
  end.

(** The default props of the widget, and a host global that holds a
    [toolInput] and a [callTool]. *)
Definition weather_defaults : JsVal :=
  VObj 60 [("city", VStr "Unknown"); ("temperature", VNum 0);
           ("weather", VStr "cloudy")].

Definition weather_host
    (callTool : option (string -> JsVal -> Completion (Promise JsVal)))
  : WindowOpenAI.t :=
  WindowOpenAI.mk VUndefined VUndefined VUndefined
    (VObj 50 [("city", VStr "Paris"); ("temperature", VNum 22);
              ("weather", VStr "sunny")])
    VUndefined VUndefined callTool None None None None.

(* ================================================================== *)
(** * The manual test ([scripts/test-manual.ts]) *)
(* ================================================================== *)

(** [extractResourceUri]: [content?.find((c) => c.type ===
    "resource_link")?.uri] *)
Definition extractResourceUri (result : JsVal) : Completion JsVal :=
  match js_get result "content" with
  | Throw e => Throw e
  | Normal content =>
      if nullish content then Normal VUndefined
      else
        match js_find content (has_type "resource_link") with
        | Throw e => Throw e
        | Normal found => optional_get found "uri"
        end
  end.

(* ================================================================== *)
(** * The counter widget's script ([examples/react-widget/src/index.ts]) *)
(* ================================================================== *)

(** [window.openai?.theme || 'light'], in the page of a window. *)
Definition script_theme (w : Window) : JsVal :=
  or_else
    (match openai w with
     | Some o => WindowOpenAI.theme o
     | None => VUndefined
     end)
    (VStr "light").

(* ================================================================== *)
(** * Subscriptions: facts about the event target *)
(* ================================================================== *)

Section Subscription.

Lemma set_invalidations_same (s : Sys) :
  set_invalidations (invalidations s ++ []) s = s.
Proof. destruct s; unfold set_invalidations; simpl. now rewrite app_nil_r. Qed.

Lemma handleSetGlobal_run (l : Listener) (event : Event) (s : Sys) :
  exec (handleSetGlobal l event) s =
  if fires event l
  then set_invalidations (invalidations s ++ [inv_of l]) s
  else s.
Proof.
  unfold exec, handleSetGlobal, fires, bind, complete.
  destruct (detail_globals_at (l_key l) event) as [v | e]; simpl; [| reflexivity].
  destruct (is_undefined v); reflexivity.
Qed.

Lemma run_listeners (event : Event) (ls : list Listener) (s : Sys) :
  for_each ls (run_listener event) s =
  (Normal tt,
   set_invalidations
     (invalidations s ++ map inv_of (filter (fires event) ls)) s).
Proof.
  revert s. induction ls as [| l ls IH]; intros s; simpl.
  - now rewrite set_invalidations_same.
  - unfold bind at 1. unfold run_listener at 1.
    fold (exec (handleSetGlobal l event) s). rewrite handleSetGlobal_run.
    rewrite IH. destruct (fires event l); simpl; [| reflexivity].
    unfold set_invalidations; simpl. now rewrite <- app_assoc.
Qed.

(** A dispatch runs, in the order of registration, the listeners of
    the event's type whose key has a value in the event. *)
Lemma dispatchEvent_run (event : Event) (s : Sys) :
  dispatchEvent event s =
  (Normal tt,
   set_invalidations
     (invalidations s ++
        map inv_of
          (filter (fires event)
             (filter (fun l => String.eqb (l_type l) (ev_type event))
                (registered s)))) s).
Proof.
  unfold dispatchEvent, registered, bind, gets.
  destruct (window s) as [w |].
  - apply run_listeners.
  - simpl. unfold ret. now rewrite set_invalidations_same.
Qed.

Lemma subscribe_run (key : GlobalKey) (onChange : nat) (s : Sys) :
  subscribe key onChange s =
  (Normal {| u_handler := nextId s |},
   let l := {| l_type := SET_GLOBALS_EVENT_TYPE; l_id := nextId s;
               l_key := key; l_onChange := onChange |} in
   match window s with
   | Some w =>
       set_window (Some (addEventListener l w)) (set_nextId (S (nextId s)) s)
   | None => set_nextId (S (nextId s)) s
   end).
Proof. destruct s as [[w |] hc inv f n]; reflexivity. Qed.

Lemma fresh_not_registered (s : Sys) (type : string) :
  ids_below s ->
  existsb (same_listener type (nextId s)) (registered s) = false.
Proof.
  intros Hb. apply not_true_is_false. intros Hex.
  apply existsb_exists in Hex. destruct Hex as (l & Hin & Hsame).
  unfold ids_below in Hb. rewrite Forall_forall in Hb. specialize (Hb l Hin).
  unfold same_listener in Hsame. apply andb_prop in Hsame.
  destruct Hsame as [_ Hid]. apply Nat.eqb_eq in Hid. lia.
Qed.

Lemma subscribe_registered (key : GlobalKey) (onChange : nat) (s : Sys) :
  ids_below s ->
  registered (exec (subscribe key onChange) s) =
  match window s with
  | Some _ =>
      registered s ++
        [{| l_type := SET_GLOBALS_EVENT_TYPE; l_id := nextId s;
            l_key := key; l_onChange := onChange |}]
  | None => []
  end.
Proof.
  intros Hb. unfold exec. rewrite subscribe_run. simpl.
  pose proof (fresh_not_registered SET_GLOBALS_EVENT_TYPE Hb) as Hf.
  unfold registered in *.
  destruct (window s) as [w |] eqn:Ew; simpl; [| now rewrite Ew].
  unfold addEventListener; simpl. now rewrite Hf.
Qed.

Lemma subscribe_nextId (key : GlobalKey) (onChange : nat) (s : Sys) :
  nextId (exec (subscribe key onChange) s) = S (nextId s).
Proof.
  unfold exec. rewrite subscribe_run. simpl. destruct (window s); reflexivity.
Qed.

Lemma subscribe_invalidations (key : GlobalKey) (onChange : nat) (s : Sys) :
  invalidations (exec (subscribe key onChange) s) = invalidations s.
Proof.
  unfold exec. rewrite subscribe_run. simpl. destruct (window s); reflexivity.
Qed.

Lemma unsubscribe_run (u : Unsubscribe) (s : Sys) :
  unsubscribe u s =
  (Normal tt,
   match window s with
   | Some w =>
       set_window
         (Some (removeEventListener SET_GLOBALS_EVENT_TYPE (u_handler u) w)) s
   | None => s
   end).
Proof. destruct s as [[w |] hc inv f n]; reflexivity. Qed.

Lemma unsubscribe_registered (u : Unsubscribe) (s : Sys) :
  registered (exec (unsubscribe u) s) =
  filter
    (fun l => negb (same_listener SET_GLOBALS_EVENT_TYPE (u_handler u) l))
    (registered s).
Proof.
  unfold exec. rewrite unsubscribe_run. unfold registered. simpl.
  destruct (window s) as [w |] eqn:E; simpl; [reflexivity | now rewrite E].
Qed.

Lemma unsubscribe_nextId (u : Unsubscribe) (s : Sys) :
  nextId (exec (unsubscribe u) s) = nextId s.
Proof. unfold exec. rewrite unsubscribe_run. simpl. destruct (window s); reflexivity. Qed.

Lemma unsubscribe_invalidations (u : Unsubscribe) (s : Sys) :
  invalidations (exec (unsubscribe u) s) = invalidations s.
Proof. unfold exec. rewrite unsubscribe_run. simpl. destruct (window s); reflexivity. Qed.

Lemma dispatchEvent_registered (event : Event) (s : Sys) :
  registered (exec (dispatchEvent event) s) = registered s.
Proof. unfold exec. now rewrite dispatchEvent_run. Qed.

Lemma dispatchEvent_nextId (event : Event) (s : Sys) :
  nextId (exec (dispatchEvent event) s) = nextId s.
Proof. unfold exec. now rewrite dispatchEvent_run. Qed.

Lemma skipn_length_app (A : Type) (l new : list A) :
  skipn (List.length l) (l ++ new) = new.
Proof. induction l; simpl; auto. Qed.

(** The [onChange] runs of a dispatch. *)
Lemma dispatchEvent_since (event : Event) (s : Sys) :
  invalidations_since (List.length (invalidations s)) (exec (dispatchEvent event) s) =
  map inv_of
    (filter (fires event)
       (filter (fun l => String.eqb (l_type l) (ev_type event)) (registered s))).
Proof.
  unfold invalidations_since, exec. rewrite dispatchEvent_run. simpl.
  apply skipn_length_app.
Qed.

(** ** Sequences of operations *)

Lemma run_op_run (op : Op) (s : Sys) :
  run_op op s = (Normal tt, exec (run_op op) s).
Proof.
  destruct op as [key onChange | u | event]; unfold exec; simpl.
  - unfold bind. now rewrite subscribe_run.
  - now rewrite unsubscribe_run.
  - now rewrite dispatchEvent_run.
Qed.

Lemma run_ops_cons (op : Op) (ops : list Op) (s : Sys) :
  run_ops (op :: ops) s = run_ops ops (exec (run_op op) s).
Proof.
  unfold run_ops; simpl. unfold bind at 1. now rewrite run_op_run.
Qed.

Lemma run_ops_run (ops : list Op) (s : Sys) :
  run_ops ops s = (Normal tt, exec (run_ops ops) s).
Proof.
  revert s. induction ops as [| op ops IH]; intros s; [reflexivity |].
  unfold exec. rewrite run_ops_cons. rewrite IH. reflexivity.
Qed.

Lemma runs_between_refl (P : Invalidation -> Prop) (s s' : Sys) :
  invalidations s' = invalidations s -> runs_between P s s'.
Proof. intros E. exists []. rewrite E, app_nil_r. auto. Qed.

Lemma runs_between_trans (P : Invalidation -> Prop) (s1 s2 s3 : Sys) :
  runs_between P s1 s2 -> runs_between P s2 s3 -> runs_between P s1 s3.
Proof.
  intros (n1 & E1 & F1) (n2 & E2 & F2). exists (n1 ++ n2).
  rewrite E2, E1, app_assoc. split; [reflexivity | now apply Forall_app].
Qed.

Lemma runs_between_since (P : Invalidation -> Prop) (s s' : Sys) :
  runs_between P s s' ->
  Forall P (invalidations_since (List.length (invalidations s)) s').
Proof.
  intros (new & E & F). unfold invalidations_since.
  now rewrite E, skipn_length_app.
Qed.

(** Only registered listeners run [onChange] in a dispatch. *)
Lemma dispatchEvent_runs (P : Invalidation -> Prop) (event : Event) (s : Sys) :
  (forall l, In l (registered s) ->
     String.eqb (l_type l) (ev_type event) = true ->
     fires event l = true -> P (inv_of l)) ->
  runs_between P s (exec (dispatchEvent event) s).
Proof.
  intros H. eexists. unfold exec. rewrite dispatchEvent_run. simpl.
  split; [reflexivity |].
  apply Forall_forall. intros i Hi. apply in_map_iff in Hi.
  destruct Hi as (l & <- & Hl). apply filter_In in Hl. destruct Hl as [Hl Hf].
  apply filter_In in Hl. destruct Hl as [Hl Ht]. now apply H.
Qed.

Lemma registered_after_add (l : Listener) (s : Sys) (w : Window) :
  window s = Some w ->
  forall l', In l' (listeners (addEventListener l w)) ->
             In l' (listeners w) \/ l' = l.
Proof.
  intros _ l'. unfold addEventListener.
  destruct (existsb _ _); simpl; [now left |].
  intros Hin. apply in_app_or in Hin. destruct Hin as [H | [H | []]]; auto.
Qed.

Lemma subscribe_registered_in (key : GlobalKey) (onChange : nat) (s : Sys) :
  forall l, In l (registered (exec (subscribe key onChange) s)) ->
    In l (registered s) \/
    l = {| l_type := SET_GLOBALS_EVENT_TYPE; l_id := nextId s;
           l_key := key; l_onChange := onChange |}.
Proof.
  intros l. unfold exec. rewrite subscribe_run. unfold registered. simpl.
  destruct (window s) as [w |] eqn:E; simpl.
  - now apply registered_after_add with (s := s).
  - rewrite E. intros [].
Qed.

Lemma owned_op (id : nat) (key : GlobalKey) (op : Op) (s : Sys) :
  owned id key s -> owned id key (exec (run_op op) s).
Proof.
  intros [Hlt Hall]. rewrite Forall_forall in Hall.
  destruct op as [key' onChange | u | event]; unfold owned.
  - replace (exec (run_op (OpSubscribe key' onChange)) s)
      with (exec (subscribe key' onChange) s)
      by (unfold exec; simpl; unfold bind; now rewrite subscribe_run).
    rewrite subscribe_nextId. split; [lia |].
    apply Forall_forall. intros l Hin.
    apply subscribe_registered_in in Hin. destruct Hin as [Hin | ->].
    + now apply Hall.
    + simpl. lia.
  - simpl. rewrite unsubscribe_nextId, unsubscribe_registered.
    split; [assumption |]. apply Forall_forall. intros l Hin.
    apply filter_In in Hin. now apply Hall.
  - simpl. rewrite dispatchEvent_nextId, dispatchEvent_registered.
    split; [assumption | now apply Forall_forall].
Qed.

Lemma owned_ops (id : nat) (key : GlobalKey) (ops : list Op) (s : Sys) :
  owned id key s -> owned id key (exec (run_ops ops) s).
Proof.
  revert s. induction ops as [| op ops IH]; intros s H; [exact H |].
  unfold exec. rewrite run_ops_cons. apply IH. now apply owned_op.
Qed.

Lemma gone_op (id : nat) (op : Op) (s : Sys) :
  gone id s ->
  gone id (exec (run_op op) s) /\
  runs_between (fun i => inv_listener i <> id) s (exec (run_op op) s).
Proof.
  intros [Hlt Hall]. rewrite Forall_forall in Hall.
  destruct op as [key' onChange | u | event]; unfold gone.
  - replace (exec (run_op (OpSubscribe key' onChange)) s)
      with (exec (subscribe key' onChange) s)
      by (unfold exec; simpl; unfold bind; now rewrite subscribe_run).
    rewrite subscribe_nextId. split; [split; [lia |] |].
    + apply Forall_forall. intros l Hin.
      apply subscribe_registered_in in Hin. destruct Hin as [Hin | ->].
      * now apply Hall.
      * simpl. lia.
    + apply runs_between_refl. apply subscribe_invalidations.
  - simpl. rewrite unsubscribe_nextId, unsubscribe_registered.
    split; [split; [assumption |] |].
    + apply Forall_forall. intros l Hin. apply filter_In in Hin. now apply Hall.
    + apply runs_between_refl. apply unsubscribe_invalidations.
  - simpl. rewrite dispatchEvent_nextId, dispatchEvent_registered.
    split; [split; [assumption | now apply Forall_forall] |].
    apply dispatchEvent_runs. intros l Hin _ _. simpl. now apply Hall.
Qed.

Lemma gone_ops (id : nat) (ops : list Op) (s : Sys) :
  gone id s ->
  gone id (exec (run_ops ops) s) /\
  runs_between (fun i => inv_listener i <> id) s (exec (run_ops ops) s).
Proof.
  revert s. induction ops as [| op ops IH]; intros s H.
  - split; [exact H | now apply runs_between_refl].
  - unfold exec. rewrite run_ops_cons.
    destruct (gone_op op H) as [H1 R1].
    destruct (IH _ H1) as [H2 R2].
    split; [exact H2 | exact (runs_between_trans R1 R2)].
Qed.

(** A new subscription owns its identity. *)
Lemma subscribe_owned (key : GlobalKey) (onChange : nat) (s : Sys) :
  ids_below s -> owned (nextId s) key (exec (subscribe key onChange) s).
Proof.
  intros Hb. unfold owned. rewrite subscribe_nextId. split; [lia |].
  apply Forall_forall. intros l Hin.
  apply subscribe_registered_in in Hin. destruct Hin as [Hin | ->].
  - unfold ids_below in Hb. rewrite Forall_forall in Hb.
    specialize (Hb l Hin). lia.
  - simpl. auto.
Qed.

(** Its cleanup removes every listener that carries the identity. *)
Lemma unsubscribe_gone (id : nat) (key : GlobalKey) (s : Sys) :
  owned id key s -> gone id (exec (unsubscribe {| u_handler := id |}) s).
Proof.
  intros [Hlt Hall]. rewrite Forall_forall in Hall. unfold gone.
  rewrite unsubscribe_nextId, unsubscribe_registered. split; [assumption |].
  apply Forall_forall. intros l Hin. apply filter_In in Hin.
  destruct Hin as [Hin Hneq]. intros Hid.
  destruct (Hall l Hin Hid) as [_ Ht].
  unfold same_listener in Hneq. simpl in Hneq.
  rewrite Ht, Hid, String.eqb_refl, Nat.eqb_refl in Hneq. discriminate.
Qed.

End Subscription.

(* ================================================================== *)
(** * Subscriptions: what a subscriber sees *)
(* ================================================================== *)

Lemma own_property_in (name : string) (fields : list (string * JsVal)) :
  own_property name fields <> VUndefined -> In name (map fst fields).
Proof.
  induction fields as [| [k v] rest IH]; simpl; [congruence |].
  destruct (String.eqb_spec k name) as [-> | Hne]; [now left |].
  intros H. right. now apply IH.
Qed.

Lemma detail_globals_at_set_globals
    (key : GlobalKey) (detail_id globals_id : nat) (fields : list (string * JsVal)) :
  detail_globals_at key (set_globals_event detail_id globals_id fields) =
  Normal (own_property (key_name key) fields).
Proof. reflexivity. Qed.

Lemma fires_defined (event : Event) (l : Listener) :
  fires event l = true ->
  exists value,
    detail_globals_at (l_key l) event = Normal value /\ value <> VUndefined.
Proof.
  unfold fires. destruct (detail_globals_at (l_key l) event) as [v | e];
    [| discriminate].
  intros H. exists v. split; [reflexivity |]. intros ->. discriminate.
Qed.

(** C7: once the function returned by [subscribe] has run, the
    listener of the subscription is registered no more (whatever was
    subscribed, unsubscribed or dispatched in between), and no later
    dispatch, of any event, makes it run [onChange] again.  Subscribing
    and unsubscribing right away leaves the registrations as they were. *)
Theorem unsubscribed_listener_never_runs
    (s : Sys) (key : GlobalKey) (onChange : nat) (before later : list Op) :
  ids_below s ->
  let u := {| u_handler := nextId s |} in
  let s1 := exec (subscribe key onChange) s in
  let s2 := exec (run_ops before) s1 in
  let s3 := exec (unsubscribe u) s2 in
  let s4 := exec (run_ops later) s3 in
  subscribe key onChange s = (Normal u, s1) /\
  unsubscribe u s2 = (Normal tt, s3) /\
  run_ops later s3 = (Normal tt, s4) /\
  Forall (fun l => l_id l <> u_handler u) (registered s3) /\
  Forall (fun l => l_id l <> u_handler u) (registered s4) /\
  Forall (fun i => inv_listener i <> u_handler u)
    (invalidations_since (List.length (invalidations s3)) s4) /\
  (before = [] -> registered s3 = registered s).
Proof.
  intros Hb u s1 s2 s3 s4.
  assert (H3 : gone (nextId s) s3).
  { apply unsubscribe_gone with (key := key). apply owned_ops.
    now apply subscribe_owned. }
  destruct (gone_ops later H3) as [H4 R].
  repeat split.
  - unfold s1, exec, u. now rewrite subscribe_run.
  - unfold s3, exec. now rewrite unsubscribe_run.
  - apply run_ops_run.
  - apply H3.
  - apply H4.
  - now apply runs_between_since.
  - intros ->. unfold s3, s2, s1.
    change (exec (run_ops []) ?x) with x.
    rewrite unsubscribe_registered, subscribe_registered by assumption.
    pose proof (fresh_not_registered SET_GLOBALS_EVENT_TYPE Hb) as Hf.
    unfold registered in *. destruct (window s) as [w |]; [| reflexivity].
    rewrite filter_app; simpl.
    unfold same_listener at 2; simpl. rewrite Nat.eqb_refl; simpl.
    rewrite app_nil_r. apply forallb_filter_id.
    apply forallb_forall. intros l Hin. apply negb_true_iff.
    destruct (same_listener _ _ l) eqn:E; [| reflexivity].
    rewrite <- Hf. symmetry. apply existsb_exists. exists l. now split.
Qed.

(** C6: a subscription for one field, then a broadcast whose mapping
    of changed fields does not name that field: the subscription's
    listener does not run [onChange]; the listeners that do run it are
    subscribed to a field the mapping names. *)
Theorem notification_of_other_fields_not_delivered
    (s : Sys) (key : GlobalKey) (onChange : nat) (between : list Op)
    (detail_id globals_id : nat) (fields : list (string * JsVal)) :
  ids_below s ->
  ~ In (key_name key) (map fst fields) ->
  let event := set_globals_event detail_id globals_id fields in
  let s1 := exec (subscribe key onChange) s in
  let s2 := exec (run_ops between) s1 in
  let s3 := exec (dispatchEvent event) s2 in
  dispatchEvent event s2 = (Normal tt, s3) /\
  Forall (fun i => inv_listener i <> nextId s)
    (invalidations_since (List.length (invalidations s2)) s3) /\
  Forall
    (fun i => exists l, In l (registered s2) /\ i = inv_of l /\
                        In (key_name (l_key l)) (map fst fields))
    (invalidations_since (List.length (invalidations s2)) s3).
Proof.
  intros Hb Hnot event s1 s2 s3.
  assert (Hown : owned (nextId s) key s2).
  { apply owned_ops. now apply subscribe_owned. }
  assert (Hnamed : forall l, fires event l = true ->
                             In (key_name (l_key l)) (map fst fields)).
  { intros l Hf. apply fires_defined in Hf. destruct Hf as (v & Hv & Hdef).
    unfold event in Hv. rewrite detail_globals_at_set_globals in Hv.
    injection Hv as <-. now apply own_property_in. }
  split; [| split].
  - unfold s3, exec. now rewrite dispatchEvent_run.
  - apply runs_between_since. apply dispatchEvent_runs.
    intros l Hin _ Hf. simpl. intros Hid.
    destruct Hown as [_ Hall]. rewrite Forall_forall in Hall.
    destruct (Hall l Hin Hid) as [Hk _].
    apply Hnot. rewrite <- Hk. now apply Hnamed.
  - apply runs_between_since. apply dispatchEvent_runs.
    intros l Hin _ Hf. exists l. repeat split; [assumption | now apply Hnamed].
Qed.

(** C10: a listener of a subscription runs [onChange] in a dispatch
    only if the event carries, for the subscribed field, a value that is
    not [undefined]; an event whose mapping gives the field the value
    [undefined], or does not name it, does not make it run. *)
Theorem invalidation_requires_defined_value
    (s : Sys) (key : GlobalKey) (onChange : nat) (between : list Op)
    (event : Event) :
  ids_below s ->
  let s1 := exec (subscribe key onChange) s in
  let s2 := exec (run_ops between) s1 in
  let s3 := exec (dispatchEvent event) s2 in
  let runs := invalidations_since (List.length (invalidations s2)) s3 in
  dispatchEvent event s2 = (Normal tt, s3) /\
  (Exists (fun i => inv_listener i = nextId s) runs ->
   exists value,
     detail_globals_at key event = Normal value /\ value <> VUndefined) /\
  (forall detail_id globals_id fields,
     event = set_globals_event detail_id globals_id fields ->
     own_property (key_name key) fields = VUndefined ->
     Forall (fun i => inv_listener i <> nextId s) runs).
Proof.
  intros Hb s1 s2 s3 runs.
  assert (Hown : owned (nextId s) key s2).
  { apply owned_ops. now apply subscribe_owned. }
  destruct Hown as [_ Hall]. rewrite Forall_forall in Hall.
  assert (Hruns : Forall
            (fun i => inv_listener i = nextId s ->
               exists value,
                 detail_globals_at key event = Normal value /\
                 value <> VUndefined) runs).
  { apply runs_between_since. apply dispatchEvent_runs.
    intros l Hin _ Hf. simpl. intros Hid.
    destruct (Hall l Hin Hid) as [<- _]. now apply fires_defined. }
  rewrite Forall_forall in Hruns.
  split; [| split].
  - unfold s3, exec. now rewrite dispatchEvent_run.
  - intros Hex. apply Exists_exists in Hex. destruct Hex as (i & Hin & Hid).
    now apply (Hruns i).
  - intros d g fields -> Hundef. apply Forall_forall. intros i Hin Hid.
    destruct (Hruns i Hin Hid) as (v & Hv & Hdef).
    rewrite detail_globals_at_set_globals in Hv. congruence.
Qed.

(** The other direction: a live subscription is invalidated by a
    broadcast that carries a value for its field. *)
Lemma defined_value_invalidates
    (s : Sys) (w : Window) (key : GlobalKey) (onChange : nat) (event : Event)
    (value : JsVal) :
  ids_below s ->
  window s = Some w ->
  ev_type event = SET_GLOBALS_EVENT_TYPE ->
  detail_globals_at key event = Normal value ->
  value <> VUndefined ->
  let s1 := exec (subscribe key onChange) s in
  let s2 := exec (dispatchEvent event) s1 in
  In {| inv_listener := nextId s; inv_callback := onChange |}
    (invalidations_since (List.length (invalidations s1)) s2).
Proof.
  intros Hb Hw Ht Hv Hdef s1 s2. unfold s2, s1.
  rewrite dispatchEvent_since, subscribe_registered by assumption.
  rewrite Hw. apply in_map_iff.
  exists {| l_type := SET_GLOBALS_EVENT_TYPE; l_id := nextId s;
            l_key := key; l_onChange := onChange |}.
  split; [reflexivity |]. apply filter_In. split.
  - apply filter_In. split; [apply in_or_app; right; now left |].
    cbn [l_type]. rewrite Ht. apply String.eqb_refl.
  - unfold fires; cbn [l_key]. rewrite Hv. now destruct value.
Qed.

(* ================================================================== *)
(** * The hooks on the core *)
(* ================================================================== *)

Section OnCore.

Lemma acts_ext (A : Type) (c : M A) (value value' : Core -> Completion A)
    (effect effect' : Core -> Core) :
  acts c value effect ->
  (forall k, value k = value' k) -> (forall k, effect k = effect' k) ->
  acts c value' effect'.
Proof.
  intros H Hv He s. destruct (H s) as (s' & E & Hc).
  exists s'. now rewrite <- Hv, <- He.
Qed.

Lemma acts_ret (A : Type) (a : A) : acts (ret a) (fun _ => Normal a) (fun k => k).
Proof. intros s. now exists s. Qed.

Lemma acts_seq (c d : M unit) (F G : Core -> Core) :
  acts c (fun _ => Normal tt) F ->
  acts d (fun _ => Normal tt) G ->
  acts (c ;; d) (fun _ => Normal tt) (fun k => G (F k)).
Proof.
  intros Hc Hd s. destruct (Hc s) as (s1 & E1 & C1).
  destruct (Hd s1) as (s2 & E2 & C2).
  exists s2. unfold bind. rewrite E1, E2, C2, C1. now split.
Qed.

Lemma acts_for_each_frame (A : Type) (xs : list A) (body : A -> M unit) :
  (forall x, acts (body x) (fun _ => Normal tt) (fun k => k)) ->
  acts (for_each xs body) (fun _ => Normal tt) (fun k => k).
Proof.
  intros H. induction xs as [| x xs IH]; simpl.
  - apply acts_ret.
  - exact (acts_seq (H x) IH).
Qed.

Lemma acts_unsubscribe (u : Unsubscribe) :
  acts (unsubscribe u) (fun _ => Normal tt) (fun k => k).
Proof.
  intros s. rewrite unsubscribe_run. eexists. split; [reflexivity |].
  destruct s as [[w |] hc inv f n]; reflexivity.
Qed.

Lemma acts_store_cleanup (onChange : nat) :
  acts (store_cleanup onChange) (fun _ => Normal tt) (fun k => k).
Proof.
  intros s. unfold store_cleanup. unfold bind at 1. unfold gets at 1.
  refine (acts_seq (F := fun k => k) (G := fun k => k) _ _ s).
  - apply acts_for_each_frame. intros c. apply acts_unsubscribe.
  - intros s0. eexists. split; reflexivity.
Qed.

Lemma acts_store_subscribe (key : GlobalKey) (onChange : nat) :
  acts (store_subscribe (subscribe key) onChange) (fun _ => Normal tt) (bump 1).
Proof.
  intros s. unfold store_subscribe, bind. rewrite subscribe_run.
  eexists. split; [reflexivity |].
  destruct s as [[w |] hc inv f n]; [| reflexivity].
  unfold addEventListener. cbn -[existsb].
  destruct (existsb _ _); reflexivity.
Qed.

Lemma acts_setLocalState (v : JsVal) :
  acts (setLocalState v) (fun _ => Normal tt) (enqueue v).
Proof. intros s. eexists. split; reflexivity. Qed.

Lemma acts_sync_effect (widgetState : JsVal) :
  acts (sync_effect widgetState setLocalState) (fun _ => Normal tt)
    (sync_effect_core widgetState).
Proof.
  unfold sync_effect, sync_effect_core.
  destruct (is_undefined widgetState); simpl.
  - apply acts_ret.
  - apply acts_setLocalState.
Qed.

(** A call of [setState], whenever it is made. *)
Lemma acts_setState (localState : JsVal) (stateOrUpdater : StateOrUpdater) :
  acts (setState_impl localState setLocalState stateOrUpdater)
    (fun k => Normal (setState_value (new_state localState stateOrUpdater) k))
    (setState_effect (new_state localState stateOrUpdater)).
Proof.
  intros s. unfold setState_value, setState_effect, persistence.
  destruct s as [[[[o |] lst] |] hc inv f n]; cbn.
  - destruct o as [th dm lo ti tou ws ct sf oe rd [sw |]]; cbn.
    + unfold setState_impl, async, bind, gets, openai_method; cbn.
      unfold host_call, bind, modify, complete; cbn.
      destruct (sw _) as [p | e]; eexists; split; reflexivity.
    + eexists. split; reflexivity.
  - eexists. split; reflexivity.
  - eexists. split; reflexivity.
Qed.

Lemma acts_init_effect (localState defaultState : JsVal) :
  acts (init_effect localState defaultState (setState_impl localState setLocalState))
    (fun _ => Normal tt) (init_effect_core localState defaultState).
Proof.
  intros s. unfold init_effect, init_effect_core, bind at 1, gets at 1.
  replace (openai_method WindowOpenAI.setWidgetState s) with (persistence (core s))
    by (destruct s as [[[[o |] lst] |] hc inv f n]; reflexivity).
  destruct (is_null localState && negb (is_undefined defaultState) &&
            match persistence (core s) with Some _ => true | None => false end);
    simpl.
  - destruct (acts_setState localState (State defaultState) s) as (s' & E & C).
    exists s'. unfold bind. rewrite E. now split.
  - now exists s.
Qed.

Lemma acts_set_mounted :
  acts (modify (fun s => set_fiber (set_mounted (fiber s)) s))
    (fun _ => Normal tt) mount.
Proof. intros s. eexists. split; reflexivity. Qed.

Ltac acts_step :=
  first
    [ apply acts_store_cleanup | apply acts_store_subscribe
    | apply acts_sync_effect | apply acts_init_effect
    | apply acts_set_mounted | apply acts_ret
    | eapply acts_seq ].

Ltac acts_chain :=
  eapply acts_ext;
  [ unfold commit, widgetState_effects, widget_effects, widget_store_effects;
    cbn [for_each map app store_effect pe_cleanup pe_create];
    repeat acts_step
  | intros; reflexivity
  | intros k; destruct k; reflexivity ].

(** The commit of a render of [useWidget] at core [c0]. *)
Lemma acts_commit_widget (c0 : Core) :
  acts (commit (widget_effects c0)) (fun _ => Normal tt)
    (fun k =>
       mount
         (if effect_runs c0 (c_sync_deps c0) [snapshot c0 KwidgetState]
          then sync_effect_core (snapshot c0 KwidgetState) (bump 5 k)
          else bump 5 k)).
Proof.
  unfold widget_effects.
  destruct (effect_runs c0 (c_sync_deps c0) [snapshot c0 KwidgetState]);
    acts_chain.
Qed.

(** The commit of a render of [useWidgetState] at core [c0]. *)
Lemma acts_commit_widgetState (defaultState : JsVal) (c0 : Core) :
  acts (commit (widgetState_effects defaultState c0)) (fun _ => Normal tt)
    (fun k =>
       let subscribed := bump 5 k in
       let synced :=
         if effect_runs c0 (c_sync_deps c0) [snapshot c0 KwidgetState]
         then sync_effect_core (snapshot c0 KwidgetState) subscribed
         else subscribed in
       mount
         (if effect_runs c0 (c_init_deps c0) []
          then init_effect_core (rendered_state c0) defaultState synced
          else synced)).
Proof.
  unfold widgetState_effects, widget_effects.
  destruct (effect_runs c0 (c_sync_deps c0) [snapshot c0 KwidgetState]);
    destruct (effect_runs c0 (c_init_deps c0) []);
    acts_chain.
Qed.

(** The body of [useWidget]: what it returns and schedules. *)
Lemma useWidget_body (defaultProps : JsVal) (s : Sys) :
  exists s_b,
    useWidget defaultProps {| rc_sys := s; rc_effects := [] |} =
    (Normal (widget_result defaultProps (core s)),
     {| rc_sys := s_b; rc_effects := widget_effects (core s) |}) /\
    core s_b = widget_body_core defaultProps (core s).
Proof.
  destruct s as [[[[o |] lst] |] hc inv [[|] cell q sd idp sc] n];
  cbv -[deps_equal nullish coalesce last];
  repeat match goal with
  | |- context [deps_equal ?a ?b] => destruct (deps_equal a b)
  | |- context [nullish (?a ?? defaultProps)] =>
      destruct (nullish (a ?? defaultProps))
  end;
  eexists; (split; reflexivity).
Qed.

Lemma useWidgetState_body (defaultState : JsVal) (s : Sys) :
  exists s_b,
    useWidgetState defaultState {| rc_sys := s; rc_effects := [] |} =
    (Normal (rendered_state (core s),
             setState_impl (rendered_state (core s)) setLocalState),
     {| rc_sys := s_b; rc_effects := widgetState_effects defaultState (core s) |}) /\
    core s_b =
    (if effect_runs (core s) (c_init_deps (core s)) []
     then set_init_deps [] (widget_body_core VUndefined (core s))
     else widget_body_core VUndefined (core s)).
Proof.
  destruct (useWidget_body VUndefined s) as (s_b & E & Cb).
  assert (Hm : mounted (fiber s_b) = c_mounted (core s))
    by (change (c_mounted (core s_b) = c_mounted (core s)); now rewrite Cb).
  assert (Hd : init_deps (fiber s_b) = c_init_deps (core s))
    by (change (c_init_deps (core s_b) = c_init_deps (core s)); now rewrite Cb).
  unfold useWidgetState. unfold bind at 1. rewrite E.
  unfold widgetState_effects, effect_runs.
  cbn [UseWidgetResult.state UseWidgetResult.setState widget_result].
  unfold useEffect, bind, liftSys, gets, schedule, modify, ret;
    cbn [rc_sys rc_effects get_deps fst snd].
  rewrite Hm, Hd.
  destruct (c_mounted (core s) && deps_equal (c_init_deps (core s)) []);
    cbn [negb rc_sys rc_effects].
  - exists s_b. rewrite app_nil_r. now split.
  - eexists. split; [reflexivity |]. rewrite <- Cb. reflexivity.
Qed.

(** A render of [useWidget] with its commit. *)
Lemma acts_render_useWidget (defaultProps : JsVal) :
  acts (render (useWidget defaultProps))
    (fun k => Normal (widget_result defaultProps k))
    (after_useWidget defaultProps).
Proof.
  intros s. destruct (useWidget_body defaultProps s) as (s_b & E & Cb).
  unfold render. rewrite E.
  destruct (acts_commit_widget (core s) s_b) as (s' & E' & C').
  exists s'. cbn [rc_effects rc_sys]. unfold bind. rewrite E'.
  split; [reflexivity |]. rewrite C', Cb. reflexivity.
Qed.

(** A render of [useWidgetState] with its commit. *)
Lemma acts_render_useWidgetState (defaultState : JsVal) :
  acts (render (useWidgetState defaultState))
    (fun k => Normal (rendered_state k,
                      setState_impl (rendered_state k) setLocalState))
    (after_useWidgetState defaultState).
Proof.
  intros s. destruct (useWidgetState_body defaultState s) as (s_b & E & Cb).
  unfold render. rewrite E.
  destruct (acts_commit_widgetState defaultState (core s) s_b) as (s' & E' & C').
  exists s'. cbn [rc_effects rc_sys]. unfold bind. rewrite E'.
  split; [reflexivity |]. rewrite C', Cb. unfold after_useWidgetState.
  destruct (effect_runs (core s) (c_init_deps (core s)) []); reflexivity.
Qed.

End OnCore.

(* ================================================================== *)
(** * [setState] *)
(* ================================================================== *)

Lemma core_after_render_mounted (defaultProps : JsVal) (s s1 : Sys) :
  core s1 = after_useWidget defaultProps (core s) ->
  mounted (fiber s1) = true.
Proof.
  intros C. change (c_mounted (core s1) = true). rewrite C.
  unfold after_useWidget. reflexivity.
Qed.

Lemma setState_effect_queue (newState : JsVal) (c : Core) :
  c_queue (setState_effect newState c) = c_queue c ++ [newState].
Proof. unfold setState_effect. destruct (persistence c); reflexivity. Qed.

Lemma setState_effect_mounted (newState : JsVal) (c : Core) :
  c_mounted (setState_effect newState c) = c_mounted c.
Proof. unfold setState_effect. destruct (persistence c); reflexivity. Qed.

Lemma rendered_state_mounted (c : Core) :
  c_mounted c = true -> rendered_state c = last (c_queue c) (c_cell c).
Proof. unfold rendered_state. now intros ->. Qed.


(** Two calls on the [setState] of one render: the updater of the
    second call gets the mirrored state of that render, not the state
    the first call set, and the next render shows the updater's result
    on it. *)
Lemma setState_twice_in_one_render
    (s : Sys) (defaultProps v : JsVal) (f : JsVal -> JsVal) :
  exists r s1 p1 s2 p2 s3 r' s4,
    render (useWidget defaultProps) s = (Normal r, s1) /\
    UseWidgetResult.setState r (State v) s1 = (Normal p1, s2) /\
    UseWidgetResult.setState r (Updater f) s2 = (Normal p2, s3) /\
    render (useWidget defaultProps) s3 = (Normal r', s4) /\
    UseWidgetResult.state r = rendered_state (core s) /\
    localState_queue (fiber s3) =
      localState_queue (fiber s1) ++ [v; f (UseWidgetResult.state r)] /\
    UseWidgetResult.state r' = f (UseWidgetResult.state r).
Proof.
  destruct (acts_render_useWidget defaultProps s) as (s1 & E1 & C1).
  set (prev := rendered_state (core s)).
  destruct (acts_setState prev (State v) s1) as (s2 & E2 & C2).
  destruct (acts_setState prev (Updater f) s2) as (s3 & E3 & C3).
  destruct (acts_render_useWidget defaultProps s3) as (s4 & E4 & C4).
  do 8 eexists.
  split; [exact E1 |]. split; [exact E2 |]. split; [exact E3 |].
  split; [exact E4 |].
  cbn [UseWidgetResult.state widget_result]. fold prev.
  assert (Hq : c_queue (core s3) = c_queue (core s1) ++ [v; f prev]).
  { rewrite C3, setState_effect_queue, C2, setState_effect_queue.
    now rewrite <- app_assoc. }
  split; [reflexivity |]. split; [exact Hq |].
  rewrite rendered_state_mounted.
  - rewrite Hq. change [v; f prev] with ([v] ++ [f prev]).
    rewrite app_assoc. apply last_last.
  - rewrite C3, setState_effect_mounted, C2, setState_effect_mounted.
    exact (core_after_render_mounted C1).
Qed.

(** With a render between the two calls, the second call is made on
    the [setState] of the new render, and its updater gets the state the
    first call set. *)
Lemma setState_twice_across_renders
    (s : Sys) (defaultProps v : JsVal) (f : JsVal -> JsVal) :
  exists r s1 p1 s2 r' s3 p2 s4 r'' s5,
    render (useWidget defaultProps) s = (Normal r, s1) /\
    UseWidgetResult.setState r (State v) s1 = (Normal p1, s2) /\
    render (useWidget defaultProps) s2 = (Normal r', s3) /\
    UseWidgetResult.setState r' (Updater f) s3 = (Normal p2, s4) /\
    render (useWidget defaultProps) s4 = (Normal r'', s5) /\
    UseWidgetResult.state r' = v /\
    UseWidgetResult.state r'' = f v.
Proof.
  destruct (acts_render_useWidget defaultProps s) as (s1 & E1 & C1).
  destruct (acts_setState (rendered_state (core s)) (State v) s1)
    as (s2 & E2 & C2).
  destruct (acts_render_useWidget defaultProps s2) as (s3 & E3 & C3).
  destruct (acts_setState (rendered_state (core s2)) (Updater f) s3)
    as (s4 & E4 & C4).
  destruct (acts_render_useWidget defaultProps s4) as (s5 & E5 & C5).
  do 10 eexists.
  split; [exact E1 |]. split; [exact E2 |]. split; [exact E3 |].
  split; [exact E4 |]. split; [exact E5 |].
  cbn [UseWidgetResult.state widget_result].
  assert (H2 : rendered_state (core s2) = v).
  { rewrite rendered_state_mounted.
    - rewrite C2, setState_effect_queue. apply last_last.
    - rewrite C2, setState_effect_mounted.
      exact (core_after_render_mounted C1). }
  split; [exact H2 |].
  rewrite rendered_state_mounted.
  - rewrite C4, setState_effect_queue, last_last. cbn [new_state]. now rewrite H2.
  - rewrite C4, setState_effect_mounted.
    exact (core_after_render_mounted C3).
Qed.

(** C1, on the code: a page without a host, [setState(5)] and then
    [setState(prev => prev + 1)] on the [setState] of the first render.
    The updater is applied to [null], the mirrored state of that render;
    the next render shows [1]. *)
Theorem setState_updater_gets_stale_mirror :
  exists r s1 p1 s2 p2 s3 r' s4,
    render (useWidget VUndefined) (page None) = (Normal r, s1) /\
    UseWidgetResult.setState r (State (VNum 5)) s1 = (Normal p1, s2) /\
    UseWidgetResult.setState r (Updater increment) s2 = (Normal p2, s3) /\
    render (useWidget VUndefined) s3 = (Normal r', s4) /\
    UseWidgetResult.state r = VNull /\
    localState_queue (fiber s3) =
      localState_queue (fiber s1) ++ [VNum 5; increment VNull] /\
    UseWidgetResult.state r' = VNum 1 /\
    UseWidgetResult.state r' <> VNum 6.
Proof.
  destruct (setState_twice_in_one_render (page None) VUndefined (VNum 5) increment)
    as (r & s1 & p1 & s2 & p2 & s3 & r' & s4 & E1 & E2 & E3 & E4 & Hr & Hq & Hr').
  change (rendered_state (core (page None))) with VNull in Hr.
  rewrite Hr in Hq, Hr'.
  exists r, s1, p1, s2, p2, s3, r', s4.
  do 6 (split; [assumption |]).
  rewrite Hr'. split; [reflexivity | discriminate].
Qed.

(* ================================================================== *)
(** * Subscriptions on a page *)
(* ================================================================== *)

(** A subscription for [theme] and a broadcast for [displayMode] only. *)
Lemma notification_of_other_fields_not_delivered_witness :
  ids_below (page (Some empty_host)) /\
  ~ In (key_name Ktheme) (map fst [("displayMode", DisplayMode_fullscreen)]) /\
  Forall (fun i => inv_listener i <> 0)
    (invalidations_since 0
       (exec (dispatchEvent
                (set_globals_event 100 101
                   [("displayMode", DisplayMode_fullscreen)]))
          (exec (subscribe Ktheme 2) (page (Some empty_host))))).
Proof.
  assert (Hb : ids_below (page (Some empty_host))) by constructor.
  assert (Hn : ~ In (key_name Ktheme)
                 (map fst [("displayMode", DisplayMode_fullscreen)])).
  { simpl. intros [H | []]. discriminate H. }
  split; [exact Hb |]. split; [exact Hn |].
  exact (proj1 (proj2
    (@notification_of_other_fields_not_delivered
       (page (Some empty_host)) Ktheme 2 [] 100 101
       [("displayMode", DisplayMode_fullscreen)] Hb Hn))).
Defined.

(** A subscription for [theme], its cleanup, and a broadcast for
    [theme]. *)
Lemma unsubscribed_listener_never_runs_witness :
  ids_below (page (Some empty_host)) /\
  Forall (fun i => inv_listener i <> 0)
    (invalidations_since 0
       (exec (run_ops
                [OpDispatch (set_globals_event 100 101 [("theme", Theme_dark)])])
          (exec (unsubscribe {| u_handler := 0 |})
             (exec (subscribe Ktheme 2) (page (Some empty_host)))))).
Proof.
  assert (Hb : ids_below (page (Some empty_host))) by constructor.
  split; [exact Hb |].
  exact (proj1 (proj2 (proj2 (proj2 (proj2 (proj2
    (@unsubscribed_listener_never_runs
       (page (Some empty_host)) Ktheme 2 []
       [OpDispatch (set_globals_event 100 101 [("theme", Theme_dark)])]
       Hb))))))).
Defined.

(** A subscription for [theme] and a broadcast that maps [theme] to
    [undefined]. *)
Lemma invalidation_requires_defined_value_witness :
  ids_below (page (Some empty_host)) /\
  Forall (fun i => inv_listener i <> 0)
    (invalidations_since 0
       (exec (dispatchEvent
                (set_globals_event 100 101 [("theme", VUndefined)]))
          (exec (subscribe Ktheme 2) (page (Some empty_host))))).
Proof.
  assert (Hb : ids_below (page (Some empty_host))) by constructor.
  split; [exact Hb |].
  exact (proj2 (proj2
    (@invalidation_requires_defined_value
       (page (Some empty_host)) Ktheme 2 []
       (set_globals_event 100 101 [("theme", VUndefined)]) Hb))
    100 101 [("theme", VUndefined)] eq_refl eq_refl).
Defined.

(* ================================================================== *)
(** * The delegating actions *)
(* ================================================================== *)

(** C3: the four delegating actions a render returns, called at any
    later moment [s].  Without [window], without [window.openai] or
    without the host method at that moment, the action raises
    [HostUnavailable] (the asynchronous ones by a rejected promise,
    [openExternal] by throwing) and the store is left as it was: no host
    method is called, no local state changes.  With the host method, the
    method is called once with the arguments, and what it does is what
    the action does: its promise is returned as it is, what it throws is
    thrown (by rejection, in an asynchronous action) as it is. *)
Theorem actions_delegate_or_raise_HostUnavailable (s0 : Sys) (defaultProps : JsVal) :
  exists r s1,
    render (useWidget defaultProps) s0 = (Normal r, s1) /\
    forall s : Sys,
      (forall name args,
         UseWidgetResult.callTool r name args s =
         match openai_method WindowOpenAI.callTool s with
         | None => (Normal (Rejected (HostUnavailable "callTool")), s)
         | Some callTool =>
             (Normal match callTool name args with
                     | Normal promise => promise
                     | Throw e => Rejected e
                     end,
              set_hostCalls (hostCalls s ++ [Call_callTool name args]) s)
         end) /\
      (forall prompt,
         UseWidgetResult.sendFollowUpMessage r prompt s =
         match openai_method WindowOpenAI.sendFollowUpMessage s with
         | None => (Normal (Rejected (HostUnavailable "sendFollowUpMessage")), s)
         | Some sendFollowUpMessage =>
             (Normal match sendFollowUpMessage {| prompt := prompt |} with
                     | Normal promise => promise
                     | Throw e => Rejected e
                     end,
              set_hostCalls
                (hostCalls s ++ [Call_sendFollowUpMessage {| prompt := prompt |}]) s)
         end) /\
      (forall href,
         UseWidgetResult.openExternal r href s =
         match openai_method WindowOpenAI.openExternal s with
         | None => (Throw (HostUnavailable "openExternal"), s)
         | Some openExternal =>
             (openExternal {| href := href |},
              set_hostCalls
                (hostCalls s ++ [Call_openExternal {| href := href |}]) s)
         end) /\
      (forall mode,
         UseWidgetResult.requestDisplayMode r mode s =
         match openai_method WindowOpenAI.requestDisplayMode s with
         | None => (Normal (Rejected (HostUnavailable "requestDisplayMode")), s)
         | Some requestDisplayMode =>
             (Normal match requestDisplayMode {| mode := mode |} with
                     | Normal promise => promise
                     | Throw e => Rejected e
                     end,
              set_hostCalls
                (hostCalls s ++ [Call_requestDisplayMode {| mode := mode |}]) s)
         end).
Proof.
  destruct (acts_render_useWidget defaultProps s0) as (s1 & E1 & _).
  exists (widget_result defaultProps (core s0)), s1.
  split; [exact E1 |]. intros s.
  cbn [widget_result UseWidgetResult.callTool UseWidgetResult.sendFollowUpMessage
       UseWidgetResult.openExternal UseWidgetResult.requestDisplayMode].
  repeat split; intros.
  - unfold callTool_impl, async, bind, gets, throw, host_call, modify, complete.
    destruct (openai_method WindowOpenAI.callTool s) as [h |]; [| reflexivity].
    destruct (h name args); reflexivity.
  - unfold sendFollowUpMessage_impl, async, bind, gets, throw, host_call,
      modify, complete.
    destruct (openai_method WindowOpenAI.sendFollowUpMessage s) as [h |];
      [| reflexivity].
    destruct (h _); reflexivity.
  - unfold openExternal_impl, bind, gets, throw, host_call, modify, complete.
    destruct (openai_method WindowOpenAI.openExternal s) as [h |];
      [| reflexivity].
    destruct (h _) as [[] | e]; reflexivity.
  - unfold requestDisplayMode_impl, async, bind, gets, throw, host_call,
      modify, complete.
    destruct (openai_method WindowOpenAI.requestDisplayMode s) as [h |];
      [| reflexivity].
    destruct (h _); reflexivity.
Qed.

(* ================================================================== *)
(** * The projections *)
(* ================================================================== *)

(** What a render leaves of the host's side of the store. *)
Lemma after_useWidget_host (defaultProps : JsVal) (s s' : Sys) :
  core s' = after_useWidget defaultProps (core s) ->
  window_openai s' = window_openai s /\
  hostCalls s' = hostCalls s /\
  invalidations s' = invalidations s.
Proof.
  intros C.
  change (c_openai (core s') = c_openai (core s) /\
          c_hostCalls (core s') = c_hostCalls (core s) /\
          c_invalidations (core s') = c_invalidations (core s)).
  rewrite C. unfold after_useWidget, sync_effect_core.
  destruct (effect_runs _ _ _); [destruct (is_undefined _) |]; now repeat split.
Qed.

Lemma render_useWidgetProps (defaultProps : JsVal) (s : Sys) :
  exists s',
    render (useWidget defaultProps) s =
      (Normal (widget_result defaultProps (core s)), s') /\
    render (useWidgetProps defaultProps) s =
      (Normal (UseWidgetResult.props (widget_result defaultProps (core s))), s') /\
    core s' = after_useWidget defaultProps (core s).
Proof.
  destruct (useWidget_body defaultProps s) as (s_b & E & Cb).
  destruct (acts_commit_widget (core s) s_b) as (s' & E' & C').
  exists s'. unfold render, useWidgetProps, bind, ret. rewrite E.
  cbn [rc_effects rc_sys]. rewrite E'.
  split; [reflexivity |]. split; [reflexivity |]. rewrite C', Cb. reflexivity.
Qed.

(** C4: the props of a render are the host's [toolInput] when it is
    set (neither [undefined] nor [null]), as it is; else the default the
    caller gave, when one was given; else a new empty object.
    [useWidgetProps] returns the same value.  Evaluating the projection
    changes nothing but the allocator, and that only for the empty
    object; the render calls no host method and leaves the host global
    and the log of invalidations as they were. *)
Theorem props_are_toolInput_else_default_else_empty
    (s : Sys) (defaultProps : JsVal) :
  exists r s',
    render (useWidget defaultProps) s = (Normal r, s') /\
    render (useWidgetProps defaultProps) s =
      (Normal (UseWidgetResult.props r), s') /\
    let toolInput :=
      match window_openai s with
      | Some o => WindowOpenAI.toolInput o
      | None => VUndefined
      end in
    UseWidgetResult.props r =
      (if negb (nullish toolInput) then toolInput
       else if negb (nullish defaultProps) then defaultProps
       else VObj (nextId s) []) /\
    (forall s0,
       exec (props_of toolInput defaultProps) s0 =
       if nullish toolInput && nullish defaultProps
       then set_nextId (S (nextId s0)) s0
       else s0) /\
    window_openai s' = window_openai s /\
    hostCalls s' = hostCalls s /\
    invalidations s' = invalidations s.
Proof.
  destruct (render_useWidgetProps defaultProps s) as (s' & E & Ep & C).
  exists (widget_result defaultProps (core s)), s'.
  split; [exact E |]. split; [exact Ep |].
  cbn [widget_result UseWidgetResult.props]. unfold snapshot. cbn [core c_openai c_nextId].
  set (toolInput := match window_openai s with
                    | Some o => openai_get o KtoolInput
                    | None => VUndefined
                    end).
  change (match window_openai s with
          | Some o => WindowOpenAI.toolInput o
          | None => VUndefined
          end) with toolInput.
  split; [| split; [| exact (after_useWidget_host C)]].
  - unfold coalesce. destruct (nullish toolInput) eqn:Et; cbn [negb];
      rewrite ?Et; [| reflexivity].
    destruct (nullish defaultProps) eqn:Ed; cbn [negb]; reflexivity.
  - intros s0. unfold props_of, exec, coalesce.
    destruct (nullish toolInput) eqn:Et; cbn [andb].
    + destruct (nullish defaultProps); reflexivity.
    + rewrite Et. reflexivity.
Qed.

(** C5: [isAvailable] is [false] exactly when there is no host global
    ([window.openai] is missing, or [window] itself is); [theme],
    [displayMode] and [locale] are the host's values, and ["light"],
    ["inline"] and ["en"] when the host leaves the field out or there is
    no host. *)
Theorem fallbacks_without_host_or_field (s : Sys) (defaultProps : JsVal) :
  exists r s',
    render (useWidget defaultProps) s = (Normal r, s') /\
    (UseWidgetResult.isAvailable r = false <-> window_openai s = None) /\
    (window_openai s = None ->
       UseWidgetResult.theme r = VStr "light" /\
       UseWidgetResult.displayMode r = VStr "inline" /\
       UseWidgetResult.locale r = VStr "en") /\
    (forall o, window_openai s = Some o ->
       UseWidgetResult.theme r =
         (if nullish (WindowOpenAI.theme o) then VStr "light"
          else WindowOpenAI.theme o) /\
       UseWidgetResult.displayMode r =
         (if nullish (WindowOpenAI.displayMode o) then VStr "inline"
          else WindowOpenAI.displayMode o) /\
       UseWidgetResult.locale r =
         (if nullish (WindowOpenAI.locale o) then VStr "en"
          else WindowOpenAI.locale o)).
Proof.
  destruct (acts_render_useWidget defaultProps s) as (s' & E & _).
  exists (widget_result defaultProps (core s)), s'.
  split; [exact E |].
  cbn [widget_result UseWidgetResult.isAvailable UseWidgetResult.theme
       UseWidgetResult.displayMode UseWidgetResult.locale].
  unfold snapshot. cbn [core c_openai c_window].
  unfold window_defined, window_openai.
  destruct (window s) as [w |]; [destruct (openai w) as [o |] |].
  - split; [split; discriminate |]. split; [discriminate |].
    intros o' [= <-]. now repeat split.
  - split; [now split |]. split; [now repeat split | discriminate].
  - split; [now split |]. split; [now repeat split | discriminate].
Qed.

(* ================================================================== *)
(** * [useWidgetState] *)
(* ================================================================== *)

Lemma Object_is_refl (v : JsVal) : Object_is v v = true.
Proof.
  destruct v; simpl; auto using Bool.eqb_reflx, Z.eqb_refl, String.eqb_refl,
    Nat.eqb_refl.
Qed.

(** The mount of [useWidgetState], on the core. *)
Lemma after_useWidgetState_mount (defaultState : JsVal) (c : Core) :
  c_mounted c = false ->
  let widgetState := snapshot c KwidgetState in
  let applies :=
    is_null (widgetState ?? VNull) && negb (is_undefined defaultState) &&
    match persistence c with Some _ => true | None => false end in
  let c1 := after_useWidgetState defaultState c in
  rendered_state c = widgetState ?? VNull /\
  c_mounted c1 = true /\
  c_openai c1 = c_openai c /\
  c_cell c1 = widgetState ?? VNull /\
  c_queue c1 =
    (if is_undefined widgetState then [] else [widgetState]) ++
    (if applies then [defaultState] else []) /\
  c_sync_deps c1 = [widgetState] /\
  c_init_deps c1 = [] /\
  c_hostCalls c1 =
    c_hostCalls c ++
    (if applies then [Call_setWidgetState defaultState] else []).
Proof.
  intros Hm ws applies c1. subst c1 applies.
  unfold after_useWidgetState, init_effect_core, sync_effect_core,
    setState_effect, widget_body_core, rendered_state, effect_runs, persistence.
  rewrite Hm. cbn [andb negb]. fold ws.
  destruct (is_undefined ws); cbn [c_openai bump set_init_deps enqueue];
    destruct (is_null (ws ?? VNull) && negb (is_undefined defaultState));
    cbn [andb];
    destruct (c_openai c) as [o |]; try destruct (WindowOpenAI.setWidgetState o);
    cbn; rewrite ?app_nil_r; repeat split.
Qed.

(** A later render of [useWidgetState] while the host's [widgetState]
    is what it was at the previous commit. *)
Lemma after_useWidgetState_rerender (defaultState : JsVal) (c : Core) :
  c_mounted c = true ->
  c_sync_deps c = [snapshot c KwidgetState] ->
  c_init_deps c = [] ->
  let c1 := after_useWidgetState defaultState c in
  rendered_state c = last (c_queue c) (c_cell c) /\
  c_mounted c1 = true /\
  c_openai c1 = c_openai c /\
  c_cell c1 = last (c_queue c) (c_cell c) /\
  c_queue c1 = [] /\
  c_sync_deps c1 = [snapshot c KwidgetState] /\
  c_init_deps c1 = [] /\
  c_hostCalls c1 = c_hostCalls c.
Proof.
  intros Hm Hs Hi c1. subst c1.
  unfold after_useWidgetState, widget_body_core, rendered_state, effect_runs.
  rewrite Hm, Hs, Hi. cbn [deps_equal andb negb].
  rewrite Object_is_refl. cbn. repeat split.
Qed.

Lemma core_persistence (s : Sys) :
  persistence (core s) = openai_method WindowOpenAI.setWidgetState s.
Proof.
  unfold persistence, openai_method, core, window_openai; simpl.
  destruct (window s) as [w |]; [destruct (openai w) |]; reflexivity.
Qed.

(** A mount of [useWidgetState] and the render that follows. *)
Lemma useWidgetState_mount_and_render (s : Sys) (defaultState : JsVal) :
  fiber s = unmounted ->
  let widgetState := snapshot (core s) KwidgetState in
  let applies :=
    is_null (widgetState ?? VNull) && negb (is_undefined defaultState) &&
    match openai_method WindowOpenAI.setWidgetState s with
    | Some _ => true
    | None => false
    end in
  exists r1 s1 r2 s2,
    render (useWidgetState defaultState) s = (Normal r1, s1) /\
    render (useWidgetState defaultState) s1 = (Normal r2, s2) /\
    fst r1 = widgetState ?? VNull /\
    localState_queue (fiber s1) =
      (if is_undefined widgetState then [] else [widgetState]) ++
      (if applies then [defaultState] else []) /\
    hostCalls s1 =
      hostCalls s ++
      (if applies then [Call_setWidgetState defaultState] else []) /\
    fst r2 = last (localState_queue (fiber s1)) (widgetState ?? VNull) /\
    localState_queue (fiber s2) = [] /\
    hostCalls s2 = hostCalls s1.
Proof.
  intros Hf ws applies.
  destruct (acts_render_useWidgetState defaultState s) as (s1 & E1 & C1).
  destruct (acts_render_useWidgetState defaultState s1) as (s2 & E2 & C2).
  assert (Hm : c_mounted (core s) = false) by (unfold core; now rewrite Hf).
  destruct (after_useWidgetState_mount defaultState (core s) Hm)
    as (Hr1 & Hm1 & Ho1 & Hcell1 & Hq1 & Hs1 & Hi1 & Hh1).
  rewrite <- C1 in Hm1, Ho1, Hcell1, Hq1, Hs1, Hi1, Hh1.
  rewrite core_persistence in Hq1, Hh1. fold ws in Hr1, Hcell1, Hq1, Hs1, Hh1.
  fold applies in Hq1, Hh1.
  assert (Hsnap : snapshot (core s1) KwidgetState = ws).
  { unfold ws, snapshot. now rewrite Ho1. }
  rewrite <- Hsnap in Hs1.
  destruct (after_useWidgetState_rerender defaultState (core s1) Hm1 Hs1 Hi1)
    as (Hr2 & _ & _ & _ & Hq2 & _ & _ & Hh2).
  rewrite <- C2 in Hq2, Hh2. rewrite Hcell1 in Hr2.
  exists (rendered_state (core s),
          setState_impl (rendered_state (core s)) setLocalState), s1,
         (rendered_state (core s1),
          setState_impl (rendered_state (core s1)) setLocalState), s2.
  cbn [fst]. repeat split; assumption.
Qed.

(** C8, as the code has it: a host global with the persistence
    action and no [widgetState], and a default state (the claim's [[]],
    or any value but [undefined]).  The mount returns [null] and, in its
    effect, calls the persistence action once, with the default; the
    render that follows returns the default as the mirrored state and
    calls nothing. *)
Theorem useWidgetState_mount_applies_default
    (s : Sys) (w : Window) (o : WindowOpenAI.t)
    (setWidgetState : JsVal -> Completion (Promise JsVal))
    (defaultState : JsVal) :
  fiber s = unmounted ->
  window s = Some w ->
  openai w = Some o ->
  WindowOpenAI.widgetState o = VUndefined ->
  WindowOpenAI.setWidgetState o = Some setWidgetState ->
  is_undefined defaultState = false ->
  exists r1 s1 r2 s2,
    render (useWidgetState defaultState) s = (Normal r1, s1) /\
    render (useWidgetState defaultState) s1 = (Normal r2, s2) /\
    fst r1 = VNull /\
    hostCalls s1 = hostCalls s ++ [Call_setWidgetState defaultState] /\
    fst r2 = defaultState /\
    hostCalls s2 = hostCalls s1.
Proof.
  intros Hf Hw Ho Hws Hp Hd.
  destruct (useWidgetState_mount_and_render s defaultState Hf)
    as (r1 & s1 & r2 & s2 & E1 & E2 & Hr1 & Hq1 & Hh1 & Hr2 & _ & Hh2).
  assert (Hsnap : snapshot (core s) KwidgetState = VUndefined).
  { unfold snapshot, core, window_openai; simpl. now rewrite Hw, Ho. }
  assert (Hper : openai_method WindowOpenAI.setWidgetState s = Some setWidgetState).
  { unfold openai_method. now rewrite Hw, Ho. }
  rewrite Hsnap, Hper, Hd in *. cbn in Hr1, Hq1, Hh1.
  rewrite Hq1 in Hr2. cbn in Hr2.
  exists r1, s1, r2, s2. repeat split; assumption.
Qed.

(** The page of the claim: the host has the persistence action and no
    [widgetState], the default is [[]]. *)
Lemma useWidgetState_mount_applies_default_witness :
  let host :=
    WindowOpenAI.mk VUndefined VUndefined VUndefined VUndefined VUndefined
      VUndefined None None None None
      (Some (fun _ => Normal (Fulfilled VUndefined))) in
  exists r1 s1 r2 s2,
    render (useWidgetState (VArr 100 [])) (page (Some host)) = (Normal r1, s1) /\
    render (useWidgetState (VArr 100 [])) s1 = (Normal r2, s2) /\
    fst r1 = VNull /\
    hostCalls s1 = [Call_setWidgetState (VArr 100 [])] /\
    fst r2 = VArr 100 [] /\
    hostCalls s2 = hostCalls s1.
Proof.
  intros host.
  exact (@useWidgetState_mount_applies_default
           (page (Some host)) {| openai := Some host; listeners := [] |} host
           (fun _ => Normal (Fulfilled VUndefined)) (VArr 100 [])
           eq_refl eq_refl eq_refl eq_refl eq_refl eq_refl).
Defined.

(** C8 as stated fails on a host global that is present and has no
    persistence action: with the default [[]], the mirrored state is
    [null] after the mount and in the render that follows, and no host
    method is called. *)
Lemma useWidgetState_default_not_applied_on_host_without_persistence :
  exists r1 s1 r2 s2,
    render (useWidgetState (VArr 100 [])) (page (Some empty_host)) =
      (Normal r1, s1) /\
    render (useWidgetState (VArr 100 [])) s1 = (Normal r2, s2) /\
    fst r1 = VNull /\
    fst r2 = VNull /\
    fst r2 <> VArr 100 [] /\
    hostCalls s1 = [] /\
    hostCalls s2 = [].
Proof.
  destruct (@useWidgetState_mount_and_render
              (page (Some empty_host)) (VArr 100 []) eq_refl)
    as (r1 & s1 & r2 & s2 & E1 & E2 & Hr1 & Hq1 & Hh1 & Hr2 & _ & Hh2).
  cbn in Hr1, Hq1, Hh1. rewrite Hq1 in Hr2. cbn in Hr2.
  exists r1, s1, r2, s2.
  split; [exact E1 |]. split; [exact E2 |]. split; [exact Hr1 |].
  split; [exact Hr2 |]. split; [rewrite Hr2; discriminate |].
  split; [exact Hh1 | congruence].
Qed.

(** No persistence action on the host (or no host global, or no
    [window]).  The mount is the mount of a hook without a default: the
    mirrored state is [widgetState ?? null] in the mount and in the
    render that follows, whatever the default; the default is not queued
    as a local update, and no host method is called. *)
Lemma useWidgetState_mount_without_persistence
    (s : Sys) (defaultState : JsVal) :
  fiber s = unmounted ->
  openai_method WindowOpenAI.setWidgetState s = None ->
  exists r1 s1 r2 s2,
    render (useWidgetState defaultState) s = (Normal r1, s1) /\
    render (useWidgetState defaultState) s1 = (Normal r2, s2) /\
    let widgetState :=
      match window_openai s with
      | Some o => WindowOpenAI.widgetState o
      | None => VUndefined
      end in
    fst r1 = (if nullish widgetState then VNull else widgetState) /\
    fst r2 = (if nullish widgetState then VNull else widgetState) /\
    localState_queue (fiber s1) =
      (if is_undefined widgetState then [] else [widgetState]) /\
    localState_queue (fiber s2) = [] /\
    hostCalls s1 = hostCalls s /\
    hostCalls s2 = hostCalls s.
Proof.
  intros Hf Hp.
  destruct (useWidgetState_mount_and_render s defaultState Hf)
    as (r1 & s1 & r2 & s2 & E1 & E2 & Hr1 & Hq1 & Hh1 & Hr2 & Hq2 & Hh2).
  rewrite Hp in *. rewrite andb_false_r, app_nil_r in *.
  exists r1, s1, r2, s2.
  split; [exact E1 |]. split; [exact E2 |].
  change (match window_openai s with
          | Some o => WindowOpenAI.widgetState o
          | None => VUndefined
          end) with (snapshot (core s) KwidgetState).
  cbv zeta. set (ws := snapshot (core s) KwidgetState) in *.
  split; [exact Hr1 |].
  split; [| split; [exact Hq1 | split; [exact Hq2 | split; congruence]]].
  rewrite Hr2, Hq1. unfold coalesce. destruct ws; reflexivity.
Qed.

(** C9, with the condition it needs: the host has set no [widgetState]
    (the field reads [undefined] or [null]) and has no persistence
    action, or there is no host global or no [window].  Then, whatever
    default is supplied, the mirrored state is [null] in the mount and
    in the render that follows; the only local update the mount may
    queue is the host's own [null], never the default; and no host
    method is called. *)
Theorem useWidgetState_mount_skips_default_without_persistence
    (s : Sys) (defaultState : JsVal) :
  fiber s = unmounted ->
  openai_method WindowOpenAI.setWidgetState s = None ->
  nullish
    match window_openai s with
    | Some o => WindowOpenAI.widgetState o
    | None => VUndefined
    end = true ->
  exists r1 s1 r2 s2,
    render (useWidgetState defaultState) s = (Normal r1, s1) /\
    render (useWidgetState defaultState) s1 = (Normal r2, s2) /\
    fst r1 = VNull /\
    fst r2 = VNull /\
    (localState_queue (fiber s1) = [] \/
     localState_queue (fiber s1) = [VNull]) /\
    localState_queue (fiber s2) = [] /\
    hostCalls s1 = hostCalls s /\
    hostCalls s2 = hostCalls s.
Proof.
  intros Hf Hp Hn.
  destruct (@useWidgetState_mount_without_persistence s defaultState Hf Hp)
    as (r1 & s1 & r2 & s2 & E1 & E2 & Hr1 & Hr2 & Hq1 & Hq2 & Hh1 & Hh2).
  rewrite Hn in Hr1, Hr2.
  exists r1, s1, r2, s2.
  split; [exact E1 |]. split; [exact E2 |].
  split; [exact Hr1 |]. split; [exact Hr2 |].
  split; [| split; [exact Hq2 | split; [exact Hh1 | exact Hh2]]].
  rewrite Hq1.
  destruct (match window_openai s with
            | Some o => WindowOpenAI.widgetState o
            | None => VUndefined
            end); try discriminate; [now left | now right].
Qed.

(** A host global that is present, with no [widgetState] and no
    persistence action, and the default [[]]. *)
Lemma useWidgetState_mount_skips_default_without_persistence_witness :
  exists r1 s1 r2 s2,
    render (useWidgetState (VArr 100 [])) (page (Some empty_host)) =
      (Normal r1, s1) /\
    render (useWidgetState (VArr 100 [])) s1 = (Normal r2, s2) /\
    fst r1 = VNull /\
    fst r2 = VNull /\
    (localState_queue (fiber s1) = [] \/
     localState_queue (fiber s1) = [VNull]) /\
    localState_queue (fiber s2) = [] /\
    hostCalls s1 = [] /\
    hostCalls s2 = [].
Proof.
  exact (@useWidgetState_mount_skips_default_without_persistence
           (page (Some empty_host)) (VArr 100 []) eq_refl eq_refl eq_refl).
Defined.

(** C9 as stated fails on a host global that has no persistence action
    and holds a [widgetState]: with the [widgetState] 7 and the default
    [[]], the mirrored state is 7, not [null], in the mount and in the
    render that follows. *)
Lemma useWidgetState_state_not_null_on_host_with_widgetState :
  openai_method WindowOpenAI.setWidgetState
    (page (Some (host_with_state (VNum 7)))) = None /\
  exists r1 s1 r2 s2,
    render (useWidgetState (VArr 100 []))
      (page (Some (host_with_state (VNum 7)))) = (Normal r1, s1) /\
    render (useWidgetState (VArr 100 [])) s1 = (Normal r2, s2) /\
    fst r1 = VNum 7 /\
    fst r2 = VNum 7 /\
    fst r1 <> VNull /\
    fst r2 <> VNull.
Proof.
  split; [reflexivity |].
  destruct (@useWidgetState_mount_without_persistence
              (page (Some (host_with_state (VNum 7)))) (VArr 100 [])
              eq_refl eq_refl)
    as (r1 & s1 & r2 & s2 & E1 & E2 & Hr1 & Hr2 & _).
  cbn in Hr1, Hr2.
  exists r1, s1, r2, s2.
  split; [exact E1 |]. split; [exact E2 |].
  split; [exact Hr1 |]. split; [exact Hr2 |].
  split; [rewrite Hr1 | rewrite Hr2]; discriminate.
Qed.

(* ================================================================== *)
(** * The mirror and the host's [widgetState] *)
(* ================================================================== *)

(** A render of [useWidget] with its commit, on the fields of the core
    the mirror depends on. *)
Lemma after_useWidget_mirror (defaultProps : JsVal) (c : Core) :
  let widgetState := snapshot c KwidgetState in
  let c1 := after_useWidget defaultProps c in
  c_mounted c1 = true /\
  c_openai c1 = c_openai c /\
  c_hostCalls c1 = c_hostCalls c /\
  c_cell c1 = rendered_state c /\
  c_queue c1 =
    (if effect_runs c (c_sync_deps c) [widgetState] &&
        negb (is_undefined widgetState)
     then [widgetState] else []).
Proof.
  intros ws c1. subst c1. unfold after_useWidget, sync_effect_core. fold ws.
  destruct (effect_runs c (c_sync_deps c) [ws]); cbn [andb];
    [destruct (is_undefined ws) |]; cbn; repeat split.
Qed.

(** Two renders in a row. *)
Lemma useWidget_two_renders (s : Sys) (defaultProps : JsVal) :
  let widgetState := snapshot (core s) KwidgetState in
  exists r1 s1 r2 s2,
    render (useWidget defaultProps) s = (Normal r1, s1) /\
    render (useWidget defaultProps) s1 = (Normal r2, s2) /\
    UseWidgetResult.state r1 = rendered_state (core s) /\
    UseWidgetResult.state r2 =
      (if effect_runs (core s) (sync_deps (fiber s)) [widgetState] &&
          negb (is_undefined widgetState)
       then widgetState else rendered_state (core s)) /\
    hostCalls s1 = hostCalls s /\
    hostCalls s2 = hostCalls s.
Proof.
  intros ws.
  destruct (acts_render_useWidget defaultProps s) as (s1 & E1 & C1).
  destruct (acts_render_useWidget defaultProps s1) as (s2 & E2 & C2).
  destruct (after_useWidget_mirror defaultProps (core s))
    as (Hm & Ho & Hh & Hc & Hq).
  rewrite <- C1 in Hm, Ho, Hh, Hc, Hq. fold ws in Hq.
  destruct (after_useWidget_mirror defaultProps (core s1))
    as (_ & _ & Hh2 & _ & _).
  rewrite <- C2 in Hh2.
  exists (widget_result defaultProps (core s)), s1,
         (widget_result defaultProps (core s1)), s2.
  split; [exact E1 |]. split; [exact E2 |].
  cbn [widget_result UseWidgetResult.state].
  split; [reflexivity |].
  split; [| split; [exact Hh | exact (eq_trans Hh2 Hh)]].
  rewrite (rendered_state_mounted _ Hm), Hq, Hc.
  change (c_sync_deps (core s)) with (sync_deps (fiber s)).
  destruct (effect_runs (core s) (sync_deps (fiber s)) [ws] &&
            negb (is_undefined ws)); reflexivity.
Qed.

(** X1: the mirror follows the host.  When a render reads a
    [widgetState] that is not [undefined] and is not the one of the
    previous commit (or the render is the mount), the render after it
    returns that [widgetState] as the mirrored state, whatever local
    updates were waiting; the host's persistence action is not called. *)
Theorem mirror_takes_changed_widgetState (s : Sys) (defaultProps : JsVal) :
  let widgetState :=
    match window_openai s with
    | Some o => WindowOpenAI.widgetState o
    | None => VUndefined
    end in
  is_undefined widgetState = false ->
  mounted (fiber s) && deps_equal (sync_deps (fiber s)) [widgetState] = false ->
  exists r1 s1 r2 s2,
    render (useWidget defaultProps) s = (Normal r1, s1) /\
    render (useWidget defaultProps) s1 = (Normal r2, s2) /\
    UseWidgetResult.state r2 = widgetState /\
    hostCalls s2 = hostCalls s.
Proof.
  intros ws Hdef Hrun.
  destruct (useWidget_two_renders s defaultProps)
    as (r1 & s1 & r2 & s2 & E1 & E2 & _ & H2 & _ & Hh).
  change (snapshot (core s) KwidgetState) with ws in H2.
  unfold effect_runs in H2. cbn [core c_mounted] in H2.
  rewrite Hrun, Hdef in H2. cbn in H2.
  exists r1, s1, r2, s2. now repeat split.
Qed.

(** A host that holds the [widgetState] 7, at the mount. *)
Lemma mirror_takes_changed_widgetState_witness :
  exists r1 s1 r2 s2,
    render (useWidget VUndefined) (page (Some (host_with_state (VNum 7)))) =
      (Normal r1, s1) /\
    render (useWidget VUndefined) s1 = (Normal r2, s2) /\
    UseWidgetResult.state r2 = VNum 7 /\
    hostCalls s2 = [].
Proof.
  exact (@mirror_takes_changed_widgetState
           (page (Some (host_with_state (VNum 7)))) VUndefined
           eq_refl eq_refl).
Defined.

(** X2: the mirror is not reset.  When the host has no [widgetState]
    (the field reads [undefined]) and no local update is waiting, the
    renders of a mounted component return the mirrored state they had,
    also when the host had a [widgetState] at the previous commit: the
    effect that syncs the mirror runs and does nothing.  No host method
    is called. *)
Theorem mirror_kept_without_widgetState (s : Sys) (defaultProps : JsVal) :
  mounted (fiber s) = true ->
  localState_queue (fiber s) = [] ->
  match window_openai s with
  | Some o => WindowOpenAI.widgetState o
  | None => VUndefined
  end = VUndefined ->
  exists r1 s1 r2 s2,
    render (useWidget defaultProps) s = (Normal r1, s1) /\
    render (useWidget defaultProps) s1 = (Normal r2, s2) /\
    UseWidgetResult.state r1 = localState_cell (fiber s) /\
    UseWidgetResult.state r2 = localState_cell (fiber s) /\
    localState_queue (fiber s1) = [] /\
    hostCalls s2 = hostCalls s.
Proof.
  intros Hm Hq Hws.
  destruct (acts_render_useWidget defaultProps s) as (s1' & E1' & C1).
  destruct (useWidget_two_renders s defaultProps)
    as (r1 & s1 & r2 & s2 & E1 & E2 & H1 & H2 & _ & Hh).
  rewrite E1 in E1'. injection E1' as _ Hs1. subst s1'.
  destruct (after_useWidget_mirror defaultProps (core s))
    as (_ & _ & _ & _ & Hq1).
  rewrite <- C1 in Hq1.
  change (snapshot (core s) KwidgetState)
    with (match window_openai s with
          | Some o => WindowOpenAI.widgetState o
          | None => VUndefined
          end) in H2, Hq1.
  rewrite Hws in H2, Hq1. cbn [is_undefined negb] in H2, Hq1.
  rewrite andb_false_r in H2, Hq1.
  rewrite rendered_state_mounted in H1, H2
    by (cbn [core c_mounted]; exact Hm).
  cbn [core c_queue c_cell] in H1, H2, Hq1. rewrite Hq in H1, H2.
  cbn [last] in H1, H2.
  exists r1, s1, r2, s2. repeat split; assumption.
Qed.

(** A mounted component whose mirror holds 5, taken from the host at
    the previous commit, on a host that has lost its [widgetState]. *)
Lemma mirror_kept_without_widgetState_witness :
  exists r1 s1 r2 s2,
    render (useWidget VUndefined)
      (mounted_page (Some empty_host) (VNum 5) [] [VNum 5]) =
      (Normal r1, s1) /\
    render (useWidget VUndefined) s1 = (Normal r2, s2) /\
    UseWidgetResult.state r1 = VNum 5 /\
    UseWidgetResult.state r2 = VNum 5 /\
    localState_queue (fiber s1) = [] /\
    hostCalls s2 = [].
Proof.
  exact (@mirror_kept_without_widgetState
           (mounted_page (Some empty_host) (VNum 5) [] [VNum 5])
           VUndefined eq_refl eq_refl eq_refl).
Defined.

(* ================================================================== *)
(** * The projections and the flag, for a consumer *)
(* ================================================================== *)

Lemma coalesce_not_nullish (a b : JsVal) :
  nullish b = false -> nullish (a ?? b) = false.
Proof. intros Hb. unfold coalesce. now destruct (nullish a) eqn:Ea. Qed.

Lemma render_useWidgetTheme (s : Sys) :
  exists s',
    render useWidgetTheme s =
      (Normal (UseWidgetResult.theme (widget_result VUndefined (core s))), s').
Proof.
  destruct (useWidget_body VUndefined s) as (s_b & E & Cb).
  destruct (acts_commit_widget (core s) s_b) as (s' & E' & C').
  exists s'. unfold render, useWidgetTheme, bind, ret. rewrite E.
  cbn [rc_effects rc_sys]. now rewrite E'.
Qed.

(** X3: a consumer never gets [undefined] or [null] for [props],
    [theme], [displayMode] or [locale], whatever the host global holds
    and whatever default is passed; [useWidgetTheme] returns the [theme]
    of [useWidget].  The values of the host are not checked against
    [Theme] or [DisplayMode]: what the host holds is passed on. *)
Theorem projections_are_never_nullish (s : Sys) (defaultProps : JsVal) :
  exists r s' t s'',
    render (useWidget defaultProps) s = (Normal r, s') /\
    render useWidgetTheme s = (Normal t, s'') /\
    t = UseWidgetResult.theme r /\
    nullish (UseWidgetResult.props r) = false /\
    nullish (UseWidgetResult.theme r) = false /\
    nullish (UseWidgetResult.displayMode r) = false /\
    nullish (UseWidgetResult.locale r) = false /\
    (forall o, window_openai s = Some o ->
       nullish (WindowOpenAI.theme o) = false ->
       UseWidgetResult.theme r = WindowOpenAI.theme o).
Proof.
  destruct (acts_render_useWidget defaultProps s) as (s' & E & _).
  destruct (render_useWidgetTheme s) as (s'' & Et).
  exists (widget_result defaultProps (core s)), s',
    (UseWidgetResult.theme (widget_result VUndefined (core s))), s''.
  split; [exact E |]. split; [exact Et |].
  cbn [widget_result UseWidgetResult.props UseWidgetResult.theme
       UseWidgetResult.displayMode UseWidgetResult.locale].
  split; [reflexivity |].
  split.
  { destruct (nullish (snapshot (core s) KtoolInput ?? defaultProps)) eqn:En;
      [reflexivity | exact En]. }
  split; [now apply coalesce_not_nullish |].
  split; [now apply coalesce_not_nullish |].
  split; [now apply coalesce_not_nullish |].
  intros o Ho Hn. unfold snapshot. cbn [core c_openai]. rewrite Ho.
  cbn [openai_get]. unfold coalesce. now rewrite Hn.
Qed.

(** X4: the flag is safe to rely on.  When a render returns
    [isAvailable = false], each of the four delegating actions, called
    before the host global appears, raises [HostUnavailable] and changes
    nothing, and [setState] updates the mirror only: its promise is
    fulfilled and no host method is called. *)
Theorem unavailable_flag_means_actions_fail
    (s : Sys) (defaultProps : JsVal) (r : UseWidgetResult.t) (s1 : Sys) :
  render (useWidget defaultProps) s = (Normal r, s1) ->
  UseWidgetResult.isAvailable r = false ->
  (forall name args,
     UseWidgetResult.callTool r name args s1 =
     (Normal (Rejected (HostUnavailable "callTool")), s1)) /\
  (forall prompt,
     UseWidgetResult.sendFollowUpMessage r prompt s1 =
     (Normal (Rejected (HostUnavailable "sendFollowUpMessage")), s1)) /\
  (forall href,
     UseWidgetResult.openExternal r href s1 =
     (Throw (HostUnavailable "openExternal"), s1)) /\
  (forall mode,
     UseWidgetResult.requestDisplayMode r mode s1 =
     (Normal (Rejected (HostUnavailable "requestDisplayMode")), s1)) /\
  (forall stateOrUpdater,
     exists s2,
       UseWidgetResult.setState r stateOrUpdater s1 =
         (Normal (Fulfilled VUndefined), s2) /\
       hostCalls s2 = hostCalls s1 /\
       localState_queue (fiber s2) =
         localState_queue (fiber s1) ++
         [match stateOrUpdater with
          | Updater f => f (UseWidgetResult.state r)
          | State v => v
          end]).
Proof.
  intros E Hflag.
  destruct (acts_render_useWidget defaultProps s) as (s1' & E' & C).
  rewrite E in E'. injection E' as Hr Hs. subst r s1'.
  destruct (after_useWidget_host C) as (Ho & _ & _).
  cbn [widget_result UseWidgetResult.isAvailable] in Hflag.
  assert (Hnone : window_openai s1 = None).
  { rewrite Ho. cbn [core c_window c_openai] in Hflag.
    unfold window_defined, window_openai in *.
    destruct (window s) as [w |]; [| reflexivity].
    destruct (openai w); [discriminate | reflexivity]. }
  assert (Hm : forall (F : Type) (m : WindowOpenAI.t -> option F),
             openai_method m s1 = None).
  { intros F m. unfold openai_method. unfold window_openai in Hnone.
    destruct (window s1) as [w |]; [| reflexivity]. now rewrite Hnone. }
  cbn [widget_result UseWidgetResult.callTool UseWidgetResult.sendFollowUpMessage
       UseWidgetResult.openExternal UseWidgetResult.requestDisplayMode
       UseWidgetResult.setState UseWidgetResult.state].
  split; [| split; [| split; [| split]]]; intros.
  - unfold callTool_impl, async, bind, gets. now rewrite Hm.
  - unfold sendFollowUpMessage_impl, async, bind, gets. now rewrite Hm.
  - unfold openExternal_impl, bind, gets. now rewrite Hm.
  - unfold requestDisplayMode_impl, async, bind, gets. now rewrite Hm.
  - destruct (acts_setState (rendered_state (core s)) stateOrUpdater s1)
      as (s2 & E2 & C2).
    assert (Hp : persistence (core s1) = None).
    { rewrite core_persistence. apply Hm. }
    unfold setState_value, setState_effect in E2, C2. rewrite Hp in E2, C2.
    exists s2. split; [exact E2 |].
    change (c_hostCalls (core s2) = c_hostCalls (core s1) /\
            c_queue (core s2) =
              c_queue (core s1) ++
              [new_state (rendered_state (core s)) stateOrUpdater]).
    rewrite C2. now split.
Qed.

(** A page without the host global. *)
Lemma unavailable_flag_means_actions_fail_witness :
  let r := widget_result VUndefined (core (page None)) in
  let s1 := exec (render (useWidget VUndefined)) (page None) in
  render (useWidget VUndefined) (page None) = (Normal r, s1) /\
  UseWidgetResult.isAvailable r = false /\
  UseWidgetResult.openExternal r "https://example.com" s1 =
    (Throw (HostUnavailable "openExternal"), s1).
Proof.
  intros r s1.
  assert (E : render (useWidget VUndefined) (page None) = (Normal r, s1))
    by (vm_compute; reflexivity).
  split; [exact E |]. split; [reflexivity |].
  exact (proj1 (proj2 (proj2
    (@unavailable_flag_means_actions_fail (page None) VUndefined r s1 E
       eq_refl))) _).
Defined.

(** X5: the host's state wins over the default.  When the host global
    holds a [widgetState] that is neither [undefined] nor [null], the
    mount of [useWidgetState] returns it, the next render returns it,
    and no host method is called, whatever default is passed and whether
    or not the host has the persistence action. *)
Theorem useWidgetState_host_state_wins (s : Sys) (defaultState : JsVal) :
  let widgetState :=
    match window_openai s with
    | Some o => WindowOpenAI.widgetState o
    | None => VUndefined
    end in
  fiber s = unmounted ->
  nullish widgetState = false ->
  exists r1 s1 r2 s2,
    render (useWidgetState defaultState) s = (Normal r1, s1) /\
    render (useWidgetState defaultState) s1 = (Normal r2, s2) /\
    fst r1 = widgetState /\
    fst r2 = widgetState /\
    hostCalls s1 = hostCalls s /\
    hostCalls s2 = hostCalls s.
Proof.
  intros ws Hf Hn.
  destruct (useWidgetState_mount_and_render s defaultState Hf)
    as (r1 & s1 & r2 & s2 & E1 & E2 & Hr1 & Hq1 & Hh1 & Hr2 & _ & Hh2).
  change (snapshot (core s) KwidgetState) with ws in Hr1, Hq1, Hh1, Hr2.
  assert (Hc : ws ?? VNull = ws) by (unfold coalesce; now rewrite Hn).
  assert (Hu : is_undefined ws = false) by (now destruct ws).
  assert (Hnull : is_null (ws ?? VNull) = false)
    by (rewrite Hc; now destruct ws).
  rewrite Hc in Hr1, Hr2. rewrite Hnull in Hq1, Hh1. rewrite Hu in Hq1.
  cbn [andb app] in Hq1, Hh1. rewrite app_nil_r in Hh1.
  rewrite Hq1 in Hr2. cbn in Hr2.
  exists r1, s1, r2, s2. repeat split; try assumption. congruence.
Qed.

(** A host that holds the [widgetState] 7, and the default 0. *)
Lemma useWidgetState_host_state_wins_witness :
  exists r1 s1 r2 s2,
    render (useWidgetState (VNum 0)) (page (Some (host_with_state (VNum 7)))) =
      (Normal r1, s1) /\
    render (useWidgetState (VNum 0)) s1 = (Normal r2, s2) /\
    fst r1 = VNum 7 /\
    fst r2 = VNum 7 /\
    hostCalls s1 = [] /\
    hostCalls s2 = [].
Proof.
  exact (@useWidgetState_host_state_wins
           (page (Some (host_with_state (VNum 7)))) (VNum 0)
           eq_refl eq_refl).
Defined.

(* ================================================================== *)
(** * Broadcasts: edge cases *)
(* ================================================================== *)

Lemma filter_none (A : Type) (f : A -> bool) (l : list A) :
  (forall x, In x l -> f x = false) -> filter f l = [].
Proof.
  induction l as [| a l IH]; intros H; [reflexivity |]. simpl.
  rewrite (H a (or_introl eq_refl)). apply IH. intros x Hx. apply H. now right.
Qed.

(** X6: a broadcast without [globals].  When the event has a [detail]
    whose [globals] is missing (or [null]), [handleSetGlobal] throws a
    [TypeError] before it gets to [onChange], for every subscribed field;
    the dispatch goes on, and in the end no listener has run [onChange]
    and the store is as it was. *)
Theorem broadcast_without_globals_runs_nothing
    (s : Sys) (event : Event) (globals : JsVal) :
  nullish (ev_detail event) = false ->
  js_get (ev_detail event) "globals" = Normal globals ->
  nullish globals = true ->
  (forall l, exists message,
     handleSetGlobal l event s = (Throw (TypeError message), s)) /\
  dispatchEvent event s = (Normal tt, s).
Proof.
  intros Hd Hg Hn.
  assert (Hat : forall key, exists message,
             detail_globals_at key event = Throw (TypeError message)).
  { intros key. unfold detail_globals_at. rewrite Hd, Hg.
    destruct globals; try discriminate; simpl; eauto. }
  split.
  - intros l. destruct (Hat (l_key l)) as (m & Hm). exists m.
    unfold handleSetGlobal, bind, complete. now rewrite Hm.
  - rewrite dispatchEvent_run. rewrite filter_none.
    + simpl. now rewrite set_invalidations_same.
    + intros l _. unfold fires. destruct (Hat (l_key l)) as (m & Hm).
      now rewrite Hm.
Qed.

(** A subscription for [theme] and an event whose [detail] is the
    empty object. *)
Lemma broadcast_without_globals_runs_nothing_witness :
  let event :=
    {| ev_type := SET_GLOBALS_EVENT_TYPE; ev_detail := VObj 100 [] |} in
  let s := exec (subscribe Ktheme 2) (page (Some empty_host)) in
  (forall l, exists message,
     handleSetGlobal l event s = (Throw (TypeError message), s)) /\
  dispatchEvent event s = (Normal tt, s).
Proof.
  intros event s.
  exact (@broadcast_without_globals_runs_nothing s event VUndefined
           eq_refl eq_refl eq_refl).
Defined.

(** X7: one broadcast, one invalidation.  A subscription that is live
    runs its [onChange] exactly once in the dispatch of a broadcast that
    carries, for its field, a value other than [undefined]; [null]
    counts, and so does a value equal to the one the host global already
    holds: the listener does not compare. *)
Theorem live_subscription_invalidated_once
    (s : Sys) (w : Window) (key : GlobalKey) (onChange : nat) (event : Event)
    (value : JsVal) :
  ids_below s ->
  window s = Some w ->
  ev_type event = SET_GLOBALS_EVENT_TYPE ->
  detail_globals_at key event = Normal value ->
  value <> VUndefined ->
  let s1 := exec (subscribe key onChange) s in
  let s2 := exec (dispatchEvent event) s1 in
  filter (fun i => Nat.eqb (inv_listener i) (nextId s))
    (invalidations_since (List.length (invalidations s1)) s2) =
  [{| inv_listener := nextId s; inv_callback := onChange |}].
Proof.
  intros Hb Hw Ht Hv Hdef s1 s2. unfold s2, s1.
  rewrite dispatchEvent_since, subscribe_registered by assumption.
  rewrite Hw. rewrite !filter_app, map_app, filter_app.
  rewrite (filter_none (fun i => Nat.eqb (inv_listener i) (nextId s))).
  - cbn [filter l_type]. rewrite Ht, String.eqb_refl. cbn [filter].
    unfold fires at 1. cbn [l_key]. rewrite Hv.
    replace (negb (is_undefined value)) with true by (now destruct value).
    cbn. now rewrite Nat.eqb_refl.
  - intros i Hi. apply in_map_iff in Hi. destruct Hi as (l & <- & Hl).
    apply filter_In in Hl. destruct Hl as [Hl _].
    apply filter_In in Hl. destruct Hl as [Hl _].
    unfold ids_below in Hb. rewrite Forall_forall in Hb.
    specialize (Hb l Hl). cbn. apply Nat.eqb_neq. lia.
Qed.

(** A subscription for [widgetState] on a host that holds [null], and
    a broadcast that maps [widgetState] to [null]. *)
Lemma live_subscription_invalidated_once_witness :
  ids_below (page (Some (host_with_state VNull))) /\
  VNull <> VUndefined /\
  let s1 := exec (subscribe KwidgetState 2)
              (page (Some (host_with_state VNull))) in
  let s2 := exec (dispatchEvent
                    (set_globals_event 100 101 [("widgetState", VNull)])) s1 in
  filter (fun i => Nat.eqb (inv_listener i) 0)
    (invalidations_since (List.length (invalidations s1)) s2) =
  [{| inv_listener := 0; inv_callback := 2 |}].
Proof.
  assert (Hb : ids_below (page (Some (host_with_state VNull))))
    by constructor.
  assert (Hd : VNull <> VUndefined) by discriminate.
  split; [exact Hb |]. split; [exact Hd |].
  exact (@live_subscription_invalidated_once
           (page (Some (host_with_state VNull)))
           {| openai := Some (host_with_state VNull); listeners := [] |}
           KwidgetState 2
           (set_globals_event 100 101 [("widgetState", VNull)])
           VNull Hb eq_refl eq_refl eq_refl Hd).
Defined.

(* ================================================================== *)
(** * The listeners of a component over its renders *)
(* ================================================================== *)

Section Lifecycle.

(** The body of [useWidget] registers nothing and allocates at most the
    empty object. *)
Lemma useWidget_body_frame (defaultProps : JsVal) (s : Sys) :
  exists s_b,
    useWidget defaultProps {| rc_sys := s; rc_effects := [] |} =
    (Normal (widget_result defaultProps (core s)),
     {| rc_sys := s_b; rc_effects := widget_effects (core s) |}) /\
    window s_b = window s /\
    store_cleanups (fiber s_b) = store_cleanups (fiber s) /\
    nextId s <= nextId s_b.
Proof.
  destruct s as [[[[o |] lst] |] hc inv [[|] cell q sd idp sc] n];
  cbv -[deps_equal nullish coalesce last Nat.le];
  repeat match goal with
  | |- context [deps_equal ?a ?b] => destruct (deps_equal a b)
  | |- context [nullish (?a ?? defaultProps)] =>
      destruct (nullish (a ?? defaultProps))
  end;
  eexists; (split; [reflexivity | repeat split; auto]).
Qed.

Lemma acts_store_cleanups (keys : list GlobalKey) :
  acts (for_each (map store_effect keys) pe_cleanup)
    (fun _ => Normal tt) (fun k => k).
Proof.
  induction keys as [| key rest IH]; simpl; [apply acts_ret |].
  exact (acts_seq (acts_store_cleanup (onChange_of key)) IH).
Qed.

Lemma for_each_app_exec (A : Type) (xs ys : list A) (body : A -> M unit)
    (s : Sys) :
  (forall x, In x xs -> forall s0, exists s', body x s0 = (Normal tt, s')) ->
  for_each (xs ++ ys) body s = for_each ys body (exec (for_each xs body) s).
Proof.
  revert s. induction xs as [| x xs IH]; intros s H; [reflexivity |].
  simpl. unfold exec, bind.
  destruct (H x (or_introl eq_refl) s) as (s' & E). rewrite E.
  apply IH. intros y Hy. apply H. now right.
Qed.

Lemma store_cleanups_normal (key : GlobalKey) (s : Sys) :
  exists s', pe_cleanup (store_effect key) s = (Normal tt, s').
Proof.
  destruct (acts_store_cleanup (onChange_of key) s) as (s' & E & _). eauto.
Qed.

Lemma store_subscribes_normal (key : GlobalKey) (s : Sys) :
  exists s', pe_create (store_effect key) s = (Normal tt, s').
Proof.
  destruct (acts_store_subscribe key (onChange_of key) s) as (s' & E & _). eauto.
Qed.

(** *** One store hook *)

Lemma unsubscribe_fiber (u : Unsubscribe) (s : Sys) :
  fiber (exec (unsubscribe u) s) = fiber s.
Proof. unfold exec. rewrite unsubscribe_run. simpl. destruct (window s); reflexivity. Qed.

Lemma cells_from_other (cb n : nat) (keys : list GlobalKey) :
  ~ In cb (map onChange_of keys) ->
  filter (fun c => Nat.eqb (fst c) cb) (cells_from n keys) = [] /\
  filter (fun c => negb (Nat.eqb (fst c) cb)) (cells_from n keys) =
    cells_from n keys.
Proof.
  revert n. induction keys as [| key rest IH]; intros n H; [now split |].
  cbn [cells_from filter map fst In] in *.
  destruct (Nat.eqb_spec (onChange_of key) cb) as [Heq | Hne];
    [exfalso; apply H; now left |].
  cbn [negb]. destruct (IH (S n)) as [H1 H2]; [tauto |]. now rewrite H1, H2.
Qed.

Lemma listeners_from_ids (n : nat) (keys : list GlobalKey) :
  Forall (fun l => n <= l_id l) (listeners_from n keys).
Proof.
  revert n. induction keys as [| key rest IH]; intros n; constructor.
  - simpl. lia.
  - eapply Forall_impl; [| apply IH]. simpl. intros l Hl. lia.
Qed.

Lemma filter_keeps (A : Type) (f : A -> bool) (l : list A) :
  Forall (fun x => f x = true) l -> filter f l = l.
Proof.
  intros H. apply forallb_filter_id. apply forallb_forall.
  now apply Forall_forall.
Qed.

Lemma store_cleanup_run (cb : nat) (s : Sys) :
  exec (store_cleanup cb) s =
  let s1 :=
    exec (for_each (filter (fun c => Nat.eqb (fst c) cb) (store_cleanups (fiber s)))
            (fun c => unsubscribe (snd c))) s in
  set_fiber
    (set_store_cleanups
       (filter (fun c => negb (Nat.eqb (fst c) cb)) (store_cleanups (fiber s1)))
       (fiber s1)) s1.
Proof.
  unfold exec, store_cleanup, bind, gets, modify.
  pose proof (acts_for_each_frame
                (filter (fun c => Nat.eqb (fst c) cb) (store_cleanups (fiber s)))
                (fun c => unsubscribe (snd c))
                (fun c => acts_unsubscribe (snd c)) s) as (s1 & E & _).
  rewrite E. reflexivity.
Qed.

Lemma exec_unsubscribe_one (c : nat * Unsubscribe) (s : Sys) :
  exec (for_each [c] (fun c => unsubscribe (snd c))) s =
  exec (unsubscribe (snd c)) s.
Proof.
  unfold exec; cbn [for_each]. unfold bind. now rewrite unsubscribe_run.
Qed.

(** The cleanup of the first store hook removes its listener and
    empties its cell. *)
Lemma store_cleanup_own
    (key : GlobalKey) (rest : list GlobalKey) (n : nat) (base : list Listener)
    (s : Sys) :
  ~ In (onChange_of key) (map onChange_of rest) ->
  store_cleanups (fiber s) = cells_from n (key :: rest) ->
  registered s = base ++ listeners_from n (key :: rest) ->
  Forall (fun l => l_id l < n) base ->
  let s' := exec (store_cleanup (onChange_of key)) s in
  registered s' = base ++ listeners_from (S n) rest /\
  store_cleanups (fiber s') = cells_from (S n) rest /\
  nextId s' = nextId s.
Proof.
  intros Hnot Hcells Hreg Hbase s'.
  destruct (@cells_from_other (onChange_of key) (S n) rest Hnot) as [F1 F2].
  assert (Es : s' =
    set_fiber (set_store_cleanups (cells_from (S n) rest)
                 (fiber (exec (unsubscribe {| u_handler := n |}) s)))
      (exec (unsubscribe {| u_handler := n |}) s)).
  { unfold s'. rewrite store_cleanup_run, Hcells.
    cbn [cells_from filter fst]. rewrite Nat.eqb_refl, F1.
    cbv zeta. rewrite exec_unsubscribe_one. cbn [snd].
    rewrite unsubscribe_fiber, Hcells.
    cbn [cells_from filter fst negb]. rewrite Nat.eqb_refl. cbn [negb].
    now rewrite F2. }
  rewrite Es.
  split; [| split].
  - change (registered (exec (unsubscribe {| u_handler := n |}) s) =
            base ++ listeners_from (S n) rest).
    rewrite unsubscribe_registered, Hreg, filter_app.
    cbn [listeners_from filter u_handler]. unfold same_listener at 2.
    cbn [l_type l_id]. rewrite String.eqb_refl, Nat.eqb_refl. cbn [andb negb].
    rewrite !filter_keeps; [reflexivity | |].
    + eapply Forall_impl; [| apply listeners_from_ids]. cbn beta.
      intros l Hl. unfold same_listener.
      replace (Nat.eqb (l_id l) n) with false
        by (symmetry; apply Nat.eqb_neq; lia).
      now rewrite andb_false_r.
    + eapply Forall_impl; [| exact Hbase]. cbn beta.
      intros l Hl. unfold same_listener.
      replace (Nat.eqb (l_id l) n) with false
        by (symmetry; apply Nat.eqb_neq; lia).
      now rewrite andb_false_r.
  - reflexivity.
  - cbn [set_fiber nextId]. apply unsubscribe_nextId.
Qed.

Lemma exec_cons (A : Type) (x : A) (xs : list A) (body : A -> M unit)
    (s : Sys) :
  (exists s', body x s = (Normal tt, s')) ->
  exec (for_each (x :: xs) body) s = exec (for_each xs body) (exec (body x) s).
Proof.
  intros (s' & E). unfold exec; cbn [for_each]. unfold bind. now rewrite E.
Qed.

(** The cleanups of a subscribed component remove its listeners, and
    only them. *)
Lemma store_cleanups_own
    (keys : list GlobalKey) (n : nat) (base : list Listener) (s : Sys) :
  NoDup (map onChange_of keys) ->
  store_cleanups (fiber s) = cells_from n keys ->
  registered s = base ++ listeners_from n keys ->
  Forall (fun l => l_id l < n) base ->
  let s' := exec (for_each (map store_effect keys) pe_cleanup) s in
  registered s' = base /\
  store_cleanups (fiber s') = [] /\
  nextId s' = nextId s.
Proof.
  revert n s. induction keys as [| key rest IH]; intros n s Hnd Hc Hr Hb s'.
  - unfold s', exec; simpl. cbn in Hr. rewrite app_nil_r in Hr. now repeat split.
  - cbn [map] in Hnd. inversion Hnd as [| ? ? Hnot Hnd']; subst.
    unfold s'. cbn [map]. rewrite exec_cons by apply store_cleanups_normal.
    cbn [store_effect pe_cleanup].
    destruct (@store_cleanup_own key rest n base s Hnot Hc Hr Hb)
      as (Hr1 & Hc1 & Hn1).
    assert (Hb1 : Forall (fun l => l_id l < S n) base)
      by (eapply Forall_impl; [| exact Hb]; cbn beta; intros; lia).
    destruct (IH (S n) _ Hnd' Hc1 Hr1 Hb1) as (Hr2 & Hc2 & Hn2).
    repeat split; [exact Hr2 | exact Hc2 | congruence].
Qed.

(** Before the mount there is nothing to clean up. *)
Lemma store_cleanups_none (keys : list GlobalKey) (s : Sys) :
  store_cleanups (fiber s) = [] ->
  exec (for_each (map store_effect keys) pe_cleanup) s = s.
Proof.
  revert s. induction keys as [| key rest IH]; intros s Hc; [reflexivity |].
  cbn [map]. rewrite exec_cons by apply store_cleanups_normal.
  cbn [store_effect pe_cleanup].
  assert (E : exec (store_cleanup (onChange_of key)) s = s).
  { rewrite store_cleanup_run, Hc. cbn [filter]. cbv zeta.
    change (exec (for_each [] _) s) with s. rewrite Hc. cbn [filter].
    rewrite <- Hc. destruct s as [w hc inv [m c q sd idp sc] n]. reflexivity. }
  rewrite E. now apply IH.
Qed.

(** A store hook subscribes: a new listener, registered last. *)
Lemma store_subscribe_fresh (key : GlobalKey) (s : Sys) :
  ids_below s ->
  window_defined s = true ->
  let s' := exec (store_subscribe (subscribe key) (onChange_of key)) s in
  registered s' = registered s ++ listeners_from (nextId s) [key] /\
  store_cleanups (fiber s') =
    store_cleanups (fiber s) ++ cells_from (nextId s) [key] /\
  nextId s' = S (nextId s) /\
  ids_below s' /\
  window_defined s' = true.
Proof.
  intros Hb Hw s'.
  assert (Es : s' =
    set_fiber
      (set_store_cleanups
         (store_cleanups (fiber (exec (subscribe key (onChange_of key)) s)) ++
          [(onChange_of key, {| u_handler := nextId s |})])
         (fiber (exec (subscribe key (onChange_of key)) s)))
      (exec (subscribe key (onChange_of key)) s)).
  { unfold s', exec, store_subscribe, bind, modify. now rewrite subscribe_run. }
  assert (Hreg : registered s' =
                 registered s ++ listeners_from (nextId s) [key]).
  { rewrite Es.
    change (registered (exec (subscribe key (onChange_of key)) s) =
            registered s ++ listeners_from (nextId s) [key]).
    rewrite subscribe_registered by assumption.
    unfold window_defined in Hw. destruct (window s); [reflexivity | discriminate]. }
  assert (Hn : nextId s' = S (nextId s)).
  { rewrite Es. cbn [set_fiber nextId]. apply subscribe_nextId. }
  split; [exact Hreg |]. split; [| split; [exact Hn | split]].
  - rewrite Es. cbn [set_fiber fiber set_store_cleanups store_cleanups].
    f_equal. unfold exec. rewrite subscribe_run. cbn [snd].
    destruct (window s); reflexivity.
  - unfold ids_below. rewrite Hreg, Hn. apply Forall_app. split.
    + eapply Forall_impl; [| exact Hb]. cbn beta. intros; lia.
    + cbn. constructor; [cbn; lia | constructor].
  - rewrite Es. unfold window_defined. cbn [set_fiber window].
    unfold exec. rewrite subscribe_run. cbn [snd].
    unfold window_defined in Hw. destruct (window s); [reflexivity | discriminate].
Qed.

Lemma listeners_from_app (n : nat) (xs ys : list GlobalKey) :
  listeners_from n (xs ++ ys) =
  listeners_from n xs ++ listeners_from (List.length xs + n) ys.
Proof.
  revert n. induction xs as [| x xs IH]; intros n; [reflexivity |].
  cbn. rewrite IH. now rewrite Nat.add_succ_r.
Qed.

Lemma cells_from_app (n : nat) (xs ys : list GlobalKey) :
  cells_from n (xs ++ ys) =
  cells_from n xs ++ cells_from (List.length xs + n) ys.
Proof.
  revert n. induction xs as [| x xs IH]; intros n; [reflexivity |].
  cbn. rewrite IH. now rewrite Nat.add_succ_r.
Qed.

(** The store hooks subscribe in the order of the calls. *)
Lemma store_subscribes_fresh (keys : list GlobalKey) (s : Sys) :
  ids_below s ->
  window_defined s = true ->
  let s' := exec (for_each (map store_effect keys) pe_create) s in
  registered s' = registered s ++ listeners_from (nextId s) keys /\
  store_cleanups (fiber s') =
    store_cleanups (fiber s) ++ cells_from (nextId s) keys /\
  nextId s' = List.length keys + nextId s /\
  ids_below s'.
Proof.
  revert s. induction keys as [| key rest IH]; intros s Hb Hw s'.
  - unfold s', exec; cbn. rewrite !app_nil_r. now repeat split.
  - unfold s'. cbn [map]. rewrite exec_cons by apply store_subscribes_normal.
    cbn [store_effect pe_create].
    destruct (@store_subscribe_fresh key s Hb Hw) as (Hr1 & Hc1 & Hn1 & Hb1 & Hw1).
    destruct (IH _ Hb1 Hw1) as (Hr2 & Hc2 & Hn2 & Hb2).
    rewrite Hr2, Hc2, Hn2, Hr1, Hc1, Hn1.
    change (key :: rest) with ([key] ++ rest).
    rewrite listeners_from_app, cells_from_app. cbn [List.length].
    rewrite <- !app_assoc. cbn [Nat.add].
    repeat split; [| exact Hb2]. now rewrite Nat.add_succ_r.
Qed.

(** The commit of a render of [useWidget], on the listeners: the
    cleanups of the store hooks, then their subscriptions; the other
    effects register nothing. *)
Lemma commit_widget_listeners (c0 : Core) (s : Sys) :
  let s_a := exec (for_each (map store_effect widget_keys) pe_cleanup) s in
  let s_c := exec (for_each (map store_effect widget_keys) pe_create) s_a in
  exists s',
    commit (widget_effects c0) s = (Normal tt, s') /\
    registered s' = registered s_c /\
    store_cleanups (fiber s') = store_cleanups (fiber s_c) /\
    nextId s' = nextId s_c.
Proof.
  intros s_a s_c.
  assert (Hcl : forall tail,
    (forall x, for_each tail pe_cleanup x = (Normal tt, x)) ->
    for_each (map store_effect widget_keys ++ tail) pe_cleanup s =
    (Normal tt, s_a)).
  { intros tail Ht. rewrite for_each_app_exec; [apply Ht |].
    intros x Hx s0. apply in_map_iff in Hx. destruct Hx as (key & <- & _).
    apply store_cleanups_normal. }
  assert (Hcr : forall tail,
    for_each (map store_effect widget_keys ++ tail) pe_create s_a =
    for_each tail pe_create s_c).
  { intros tail. rewrite for_each_app_exec; [reflexivity |].
    intros x Hx s0. apply in_map_iff in Hx. destruct Hx as (key & <- & _).
    apply store_subscribes_normal. }
  unfold widget_effects, commit, bind.
  change widget_store_effects with (map store_effect widget_keys).
  destruct (effect_runs c0 (c_sync_deps c0) [snapshot c0 KwidgetState]).
  - rewrite Hcl by reflexivity. rewrite Hcr. cbn [for_each pe_create].
    unfold bind, sync_effect, when.
    destruct (negb (is_undefined (snapshot c0 KwidgetState)));
      eexists; (split; [reflexivity | now repeat split]).
  - rewrite Hcl by reflexivity. rewrite Hcr. cbn [for_each].
    eexists. split; [reflexivity | now repeat split].
Qed.

(** A render of [useWidget] leaves a subscribed component subscribed,
    with five new listeners in place of the five it had; a mount
    subscribes it. *)
Lemma render_keeps_subscribed
    (defaultProps : JsVal) (base : list Listener) (s : Sys) :
  subscribed base s \/
  (registered s = base /\ store_cleanups (fiber s) = [] /\ ids_below s /\
   window_defined s = true) ->
  exists r s',
    render (useWidget defaultProps) s = (Normal r, s') /\
    subscribed base s' /\
    nextId s + 5 <= nextId s'.
Proof.
  intros H.
  destruct (useWidget_body_frame defaultProps s)
    as (s_b & E & Hw & Hc & Hn).
  destruct (commit_widget_listeners (core s) s_b) as (s' & Ec & Hr' & Hc' & Hn').
  exists (widget_result defaultProps (core s)), s'.
  split.
  { unfold render. rewrite E. cbn [rc_effects rc_sys]. unfold bind.
    now rewrite Ec. }
  assert (Hreg : registered s_b = registered s)
    by (unfold registered; now rewrite Hw).
  assert (Hwd : window_defined s_b = window_defined s)
    by (unfold window_defined; now rewrite Hw).
  set (s_a := exec (for_each (map store_effect widget_keys) pe_cleanup) s_b) in *.
  assert (Ha : registered s_a = base /\ store_cleanups (fiber s_a) = [] /\
               nextId s_a = nextId s_b /\ ids_below s_a /\
               window_defined s_a = true).
  { destruct H as [(n & Hr & Hcs & Hb & Hnx) | (Hr & Hcs & Hb & Hwin)].
    - assert (Hnd : NoDup (map onChange_of widget_keys)).
      { cbn. repeat constructor; cbn; intuition discriminate. }
      rewrite <- Hreg in Hr. rewrite <- Hc in Hcs.
      destruct (@store_cleanups_own widget_keys n base s_b Hnd Hcs Hr Hb)
        as (Hr1 & Hc1 & Hn1).
      fold s_a in Hr1, Hc1, Hn1.
      split; [exact Hr1 |]. split; [exact Hc1 |]. split; [exact Hn1 |].
      split.
      + unfold ids_below. rewrite Hr1, Hn1.
        eapply Forall_impl; [| exact Hb]. cbn beta. intros; lia.
      + assert (Hne : registered s_a = base) by exact Hr1.
        unfold window_defined.
        assert (Hws : window_defined s_b = true).
        { unfold window_defined, registered in *.
          destruct (window s_b); [reflexivity |].
          destruct base; discriminate. }
        clear - Hws.
        unfold s_a.
        pose proof (acts_store_cleanups widget_keys s_b) as (s1 & E1 & C1).
        unfold exec. rewrite E1. cbn [snd].
        change (c_window (core s1) = true). rewrite C1. exact Hws.
    - rewrite <- Hc in Hcs.
      unfold s_a. rewrite store_cleanups_none by exact Hcs.
      split; [congruence |]. split; [exact Hcs |]. split; [reflexivity |].
      split; [| congruence].
      unfold ids_below in *. rewrite Hreg.
      eapply Forall_impl; [| exact Hb]. cbn beta. intros; lia. }
  destruct Ha as (Hra & Hca & Hna & Hba & Hwa).
  destruct (@store_subscribes_fresh widget_keys s_a Hba Hwa)
    as (Hr2 & Hc2 & Hn2 & _).
  rewrite Hr2, Hra in Hr'. rewrite Hc2, Hca in Hc'. rewrite Hn2 in Hn'.
  cbn [app] in Hc'. cbn [List.length widget_keys] in Hn'.
  split.
  - exists (nextId s_a). repeat split; try assumption.
    + destruct H as [(n & Hr & Hcs & Hb & Hnx) | (Hr & Hcs & Hb & Hwin)].
      * eapply Forall_impl; [| exact Hb]. cbn beta. intros; lia.
      * unfold ids_below in Hb. rewrite Hr in Hb.
        eapply Forall_impl; [| exact Hb]. cbn beta. intros; lia.
    + lia.
  - lia.
Qed.

Lemma renders_keep_subscribed
    (defaultProps : JsVal) (base : list Listener) (k : nat) (s : Sys) :
  subscribed base s ->
  exists s',
    renders k (useWidget defaultProps) s = (Normal tt, s') /\
    subscribed base s' /\
    nextId s <= nextId s'.
Proof.
  revert s. induction k as [| k IH]; intros s H.
  - exists s. now repeat split.
  - destruct (@render_keeps_subscribed defaultProps base s (or_introl H))
      as (r & s1 & E & H1 & Hn1).
    destruct (IH s1 H1) as (s' & E' & H' & Hn').
    exists s'. cbn [renders]. unfold bind. rewrite E.
    split; [exact E' |]. split; [exact H' | lia].
Qed.

End Lifecycle.

(** X8: renders do not pile up listeners.  From a component that is
    not mounted yet, on a page with a window: after the mount and any
    number of further renders, the listeners registered on the window are
    the ones that were there before, followed by exactly five listeners
    of the component, one for each of [toolInput], [widgetState],
    [theme], [displayMode] and [locale], in that order.  Each render
    removes the five of the render before. *)
Theorem renders_keep_five_listeners
    (s : Sys) (defaultProps : JsVal) (k : nat) :
  fiber s = unmounted ->
  window_defined s = true ->
  ids_below s ->
  exists s' n,
    renders (S k) (useWidget defaultProps) s = (Normal tt, s') /\
    registered s' = registered s ++ listeners_from n widget_keys /\
    List.length (registered s') = List.length (registered s) + 5 /\
    map l_key (listeners_from n widget_keys) = widget_keys /\
    nextId s <= n.
Proof.
  intros Hf Hw Hb.
  assert (Hc : store_cleanups (fiber s) = []) by now rewrite Hf.
  destruct (@render_keeps_subscribed defaultProps (registered s) s
              (or_intror (conj eq_refl (conj Hc (conj Hb Hw)))))
    as (r & s1 & E & H1 & Hn1).
  destruct (@renders_keep_subscribed defaultProps (registered s) k s1 H1)
    as (s' & E' & (n & Hr & _ & Hbase & Hn) & Hn').
  exists s', n. cbn [renders]. unfold bind. rewrite E.
  split; [exact E' |]. split; [exact Hr |].
  split; [rewrite Hr, length_app; reflexivity |].
  split; [reflexivity |]. lia.
Qed.

(** The mount and two more renders on a page with an empty host. *)
Lemma renders_keep_five_listeners_witness :
  ids_below (page (Some empty_host)) /\
  exists s' n,
    renders 3 (useWidget VUndefined) (page (Some empty_host)) =
      (Normal tt, s') /\
    registered s' = listeners_from n widget_keys /\
    List.length (registered s') = 5 /\
    map l_key (listeners_from n widget_keys) = widget_keys /\
    0 <= n.
Proof.
  assert (Hb : ids_below (page (Some empty_host))) by constructor.
  split; [exact Hb |].
  exact (@renders_keep_five_listeners (page (Some empty_host)) VUndefined 2
           eq_refl eq_refl Hb).
Defined.

(** X9: a broadcast reaches the mounted component by its fields.
    After the mount and any number of renders, the dispatch of a
    broadcast runs the listeners that were registered before the mount
    as it would have, and then, of the component's five store hooks,
    the [onChange] of exactly those whose field the broadcast maps to a
    value other than [undefined], in the order of the hook calls. *)
Theorem broadcast_invalidates_hooks_of_its_fields
    (s : Sys) (defaultProps : JsVal) (k : nat)
    (detail_id globals_id : nat) (fields : list (string * JsVal)) :
  fiber s = unmounted ->
  window_defined s = true ->
  ids_below s ->
  let event := set_globals_event detail_id globals_id fields in
  exists s' n,
    renders (S k) (useWidget defaultProps) s = (Normal tt, s') /\
    invalidations_since (List.length (invalidations s'))
      (exec (dispatchEvent event) s') =
    invalidations_since (List.length (invalidations s))
      (exec (dispatchEvent event) s) ++
    map inv_of
      (filter
         (fun l =>
            negb (is_undefined (own_property (key_name (l_key l)) fields)))
         (listeners_from n widget_keys)).
Proof.
  intros Hf Hw Hb event.
  assert (Hc : store_cleanups (fiber s) = []) by now rewrite Hf.
  destruct (@render_keeps_subscribed defaultProps (registered s) s
              (or_intror (conj eq_refl (conj Hc (conj Hb Hw)))))
    as (r & s1 & E & H1 & Hn1).
  destruct (@renders_keep_subscribed defaultProps (registered s) k s1 H1)
    as (s' & E' & (n & Hr & _ & Hbase & Hn) & Hn').
  exists s', n. cbn [renders]. unfold bind. rewrite E.
  split; [exact E' |].
  rewrite !dispatchEvent_since, Hr, !filter_app, map_app.
  apply f_equal. reflexivity.
Qed.

(** The mount and one more render, then a broadcast that maps [theme]
    to [dark] and [locale] to [undefined]: the hook of [theme] is
    invalidated, and no other. *)
Lemma broadcast_invalidates_hooks_of_its_fields_witness :
  ids_below (page (Some empty_host)) /\
  exists s' n,
    renders 2 (useWidget VUndefined) (page (Some empty_host)) =
      (Normal tt, s') /\
    invalidations_since (List.length (invalidations s'))
      (exec (dispatchEvent
               (set_globals_event 100 101
                  [("theme", Theme_dark); ("locale", VUndefined)])) s') =
    [{| inv_listener := n + 2; inv_callback := onChange_of Ktheme |}].
Proof.
  assert (Hb : ids_below (page (Some empty_host))) by constructor.
  split; [exact Hb |].
  destruct (@broadcast_invalidates_hooks_of_its_fields
              (page (Some empty_host)) VUndefined 1 100 101
              [("theme", Theme_dark); ("locale", VUndefined)]
              eq_refl eq_refl Hb) as (s' & n & E & H).
  exists s', n. split; [exact E |]. rewrite H. cbn.
  now rewrite <- !Nat.add_succ_comm, Nat.add_0_r.
Defined.

(* ================================================================== *)
(** * The example widget: fetching the forecast *)
(* ================================================================== *)

Lemma render_result (defaultProps : JsVal) (s s1 : Sys) (r : UseWidgetResult.t) :
  render (useWidget defaultProps) s = (Normal r, s1) ->
  r = widget_result defaultProps (core s).
Proof.
  intros E. destruct (acts_render_useWidget defaultProps s) as (s' & E' & _).
  rewrite E in E'. now injection E'.
Qed.

Lemma props_readable (defaultProps : JsVal) (c : Core) :
  exists city,
    js_get (UseWidgetResult.props (widget_result defaultProps c)) "city" =
    Normal city.
Proof.
  cbn [widget_result UseWidgetResult.props].
  destruct (nullish (snapshot c KtoolInput ?? defaultProps)) eqn:En.
  - eexists. reflexivity.
  - destruct (snapshot c KtoolInput ?? defaultProps); try discriminate;
      eexists; reflexivity.
Qed.

Lemma or_else_truthy (a b : JsVal) :
  truthy b = true -> truthy (or_else a b) = true.
Proof.
  intros Hb. unfold or_else. now destruct (truthy a) eqn:Ea.
Qed.

Lemma forecast_of_truthy (result forecast : JsVal) :
  forecast_of result = Normal forecast -> truthy forecast = true.
Proof.
  unfold forecast_of.
  destruct (js_get result "content") as [content |]; [| discriminate].
  destruct (js_find content (has_type "text")) as [found |]; [| discriminate].
  destruct (optional_get found "text") as [text |]; [| discriminate].
  intros H. injection H as <-. now apply or_else_truthy.
Qed.

Lemma find_first_skips (predicate : JsVal -> Completion bool)
    (before rest : list JsVal) :
  Forall (fun c => predicate c = Normal false) before ->
  find_first predicate (before ++ rest) = find_first predicate rest.
Proof.
  induction 1 as [| c before Hc _ IH]; [reflexivity |].
  cbn [app find_first]. now rewrite Hc.
Qed.

Lemma has_type_object (type : string) (c : JsVal) :
  has_type type c = Normal true -> nullish c = false.
Proof.
  destruct c; try reflexivity; discriminate.
Qed.

Lemma callTool_impl_run (name : string) (args : JsVal) (s : Sys) :
  callTool_impl name args s =
  match openai_method WindowOpenAI.callTool s with
  | None => (Normal (Rejected (HostUnavailable "callTool")), s)
  | Some f =>
      (Normal match f name args with
              | Normal p => p
              | Throw e => Rejected e
              end,
       set_hostCalls (hostCalls s ++ [Call_callTool name args]) s)
  end.
Proof.
  unfold callTool_impl, async, bind, gets, throw, host_call, modify, complete.
  destruct (openai_method WindowOpenAI.callTool s) as [f |]; [| reflexivity].
  now destruct (f name args).
Qed.

Lemma handleFetchForecast_run (r : UseWidgetResult.t) (city : JsVal) (a : App) :
  UseWidgetResult.isAvailable r = true ->
  UseWidgetResult.callTool r = callTool_impl ->
  js_get (UseWidgetResult.props r) "city" = Normal city ->
  handleFetchForecast r a =
  (Normal (fst (fetch_run city a)), snd (fetch_run city a)).
Proof.
  intros Hav Hct Hcity. unfold handleFetchForecast. rewrite Hav. cbn [negb].
  destruct a as [sa ua].
  cbv [async_job job_bind try_finally try_catch run ui modify complete
       on_sys object_literal fresh bind gets ret await app_sys app_ui].
  rewrite Hcity, Hct, callTool_impl_run.
  unfold fetch_run, fetch_called, fetch_args, fetch_failed.
  cbn [app_sys app_ui].
  change (openai_method WindowOpenAI.callTool (set_nextId (S (nextId sa)) sa))
    with (openai_method WindowOpenAI.callTool sa).
  destruct (openai_method WindowOpenAI.callTool sa) as [f |].
  - change (nextId (set_nextId (S (nextId sa)) sa)) with (S (nextId sa)).
    destruct (f _ _) as [[result | e |] | e];
      [destruct (forecast_of result) as [forecast | e] | | |];
      cbn [fst snd]; rewrite <- ?app_assoc; reflexivity.
  - cbn [fst snd]. rewrite <- ?app_assoc. reflexivity.
Qed.

(** X10: what a click on the forecast button can do.  For the hook
    result of any render and any store at the time of the click, the
    promise of [handleFetchForecast] is never rejected, and one of four
    things happened: the flag was not set, and there was an [alert] and
    nothing else; the host's promise does not settle, and [loading] is
    left set; the forecast was set to a value that is truthy, and
    [loading] set and cleared around it; or an error was logged, the
    forecast set to the error text, and [loading] set and cleared around
    them.  The host saw at most one call, a [callTool] of
    [get-forecast]. *)
Theorem handleFetchForecast_outcomes
    (s : Sys) (defaultProps : JsVal) (r : UseWidgetResult.t) (s1 : Sys)
    (a : App) :
  render (useWidget defaultProps) s = (Normal r, s1) ->
  exists p a',
    handleFetchForecast r a = (Normal p, a') /\
    (forall e, p <> Rejected e) /\
    ((UseWidgetResult.isAvailable r = false /\ p = Fulfilled tt /\
      app_sys a' = app_sys a /\
      app_ui a' = app_ui a ++ [Alert standalone_notice]) \/
     (UseWidgetResult.isAvailable r = true /\ p = Pending /\
      app_ui a' = app_ui a ++ [SetLoading true]) \/
     (UseWidgetResult.isAvailable r = true /\ p = Fulfilled tt /\
      exists forecast,
        truthy forecast = true /\
        app_ui a' =
        app_ui a ++ [SetLoading true; SetForecast forecast; SetLoading false]) \/
     (UseWidgetResult.isAvailable r = true /\ p = Fulfilled tt /\
      exists error,
        app_ui a' =
        app_ui a ++
        [SetLoading true; ConsoleError "Failed to fetch forecast:" error;
         SetForecast (VStr "Error fetching forecast"); SetLoading false])) /\
    (hostCalls (app_sys a') = hostCalls (app_sys a) \/
     exists args,
       hostCalls (app_sys a') =
       hostCalls (app_sys a) ++ [Call_callTool "get-forecast" args]).
Proof.
  intros E. rewrite (@render_result _ _ _ _ E).
  destruct (props_readable defaultProps (core s)) as (city & Hcity).
  set (r0 := widget_result defaultProps (core s)) in *.
  destruct (UseWidgetResult.isAvailable r0) eqn:Hav.
  - rewrite (@handleFetchForecast_run r0 city a Hav eq_refl Hcity).
    exists (fst (fetch_run city a)), (snd (fetch_run city a)).
    split; [reflexivity |].
    unfold fetch_run, fetch_called, fetch_failed.
    destruct (openai_method WindowOpenAI.callTool (app_sys a)) as [f |].
    + destruct (f _ _) as [[result | e |] | e];
        [destruct (forecast_of result) as [forecast | e] eqn:Ef | | |];
        cbn [fst snd app_sys app_ui hostCalls set_hostCalls set_nextId];
        (split; [discriminate |]);
        (split; [| right; eexists; reflexivity]).
      * right; right; left. repeat split. exists forecast.
        split; [exact (forecast_of_truthy result Ef) | reflexivity].
      * right; right; right. repeat split. now exists e.
      * right; right; right. repeat split. now exists e.
      * right; left. now repeat split.
      * right; right; right. repeat split. now exists e.
    + cbn [fst snd app_sys app_ui hostCalls set_nextId].
      split; [discriminate |]. split; [| now left].
      right; right; right. repeat split. now eexists.
  - unfold handleFetchForecast. rewrite Hav. cbn [negb].
    destruct a as [sa ua]. do 2 eexists. split; [reflexivity |].
    split; [discriminate |]. cbn [app_sys app_ui]. split; [| now left].
    left. now repeat split.
Qed.

(** The page of the example: the host holds the [toolInput] of Paris and
    a [callTool] that answers with one text item. *)
Lemma handleFetchForecast_outcomes_witness :
  let host :=
    weather_host
      (Some (fun _ _ =>
         Normal (Fulfilled
           (VObj 70 [("content",
              VArr 71 [VObj 72 [("type", VStr "text");
                                ("text", VStr "Sunny all week")]])])))) in
  let r := widget_result weather_defaults (core (page (Some host))) in
  let s1 := exec (render (useWidget weather_defaults)) (page (Some host)) in
  render (useWidget weather_defaults) (page (Some host)) = (Normal r, s1) /\
  exists p a',
    handleFetchForecast r {| app_sys := s1; app_ui := [] |} = (Normal p, a') /\
    (forall e, p <> Rejected e).
Proof.
  intros host r s1.
  assert (E : render (useWidget weather_defaults) (page (Some host)) =
              (Normal r, s1)) by (vm_compute; reflexivity).
  split; [exact E |].
  destruct (@handleFetchForecast_outcomes (page (Some host)) weather_defaults
              r s1 {| app_sys := s1; app_ui := [] |} E)
    as (p & a' & H & Hp & _).
  exists p, a'. split; [exact H | exact Hp].
Defined.

(** X11: a host without [callTool].  The flag says that the host
    global is there, not that it has the method: when the flag is set
    and the host global has no [callTool] at the click, the handler ends
    normally, logs the [HostUnavailable] error of the hook, sets the
    forecast to the error text and clears [loading]; the host sees no
    call. *)
Theorem handleFetchForecast_without_callTool
    (s : Sys) (defaultProps : JsVal) (r : UseWidgetResult.t) (s1 : Sys)
    (a : App) :
  render (useWidget defaultProps) s = (Normal r, s1) ->
  UseWidgetResult.isAvailable r = true ->
  openai_method WindowOpenAI.callTool (app_sys a) = None ->
  exists a',
    handleFetchForecast r a = (Normal (Fulfilled tt), a') /\
    app_ui a' =
      app_ui a ++
      [SetLoading true;
       ConsoleError "Failed to fetch forecast:" (HostUnavailable "callTool");
       SetForecast (VStr "Error fetching forecast");
       SetLoading false] /\
    hostCalls (app_sys a') = hostCalls (app_sys a).
Proof.
  intros E Hav Hm. rewrite (@render_result _ _ _ _ E) in *.
  destruct (props_readable defaultProps (core s)) as (city & Hcity).
  rewrite (@handleFetchForecast_run _ city a Hav eq_refl Hcity).
  unfold fetch_run. rewrite Hm. cbn [fst snd].
  eexists. split; [reflexivity |]. now split.
Qed.

Lemma handleFetchForecast_without_callTool_witness :
  let host := weather_host None in
  let r := widget_result weather_defaults (core (page (Some host))) in
  let s1 := exec (render (useWidget weather_defaults)) (page (Some host)) in
  render (useWidget weather_defaults) (page (Some host)) = (Normal r, s1) /\
  UseWidgetResult.isAvailable r = true /\
  exists a',
    handleFetchForecast r {| app_sys := s1; app_ui := [] |} =
      (Normal (Fulfilled tt), a') /\
    app_ui a' =
      [SetLoading true;
       ConsoleError "Failed to fetch forecast:" (HostUnavailable "callTool");
       SetForecast (VStr "Error fetching forecast");
       SetLoading false] /\
    hostCalls (app_sys a') = [].
Proof.
  intros host r s1.
  assert (E : render (useWidget weather_defaults) (page (Some host)) =
              (Normal r, s1)) by (vm_compute; reflexivity).
  split; [exact E |]. split; [reflexivity |].
  assert (Hm : openai_method WindowOpenAI.callTool s1 = None)
    by (vm_compute; reflexivity).
  exact (@handleFetchForecast_without_callTool (page (Some host))
           weather_defaults r s1 {| app_sys := s1; app_ui := [] |}
           E eq_refl Hm).
Defined.

(** X12: which text becomes the forecast.  When the host's [callTool]
    fulfils with a result whose [content] is an array, the forecast is
    the [text] of the first item of type [text], or the text [No
    forecast available] when that [text] is falsy (missing or empty);
    the items after it are not looked at.  The host was called once,
    with the [city] of the props and [days] 7. *)
Theorem forecast_is_text_of_first_text_item
    (s : Sys) (defaultProps : JsVal) (r : UseWidgetResult.t) (s1 : Sys)
    (a : App) (f : string -> JsVal -> Completion (Promise JsVal))
    (result : JsVal) (id : nat) (before : list JsVal) (item : JsVal)
    (rest : list JsVal) (text : JsVal) :
  render (useWidget defaultProps) s = (Normal r, s1) ->
  UseWidgetResult.isAvailable r = true ->
  openai_method WindowOpenAI.callTool (app_sys a) = Some f ->
  (forall args, f "get-forecast" args = Normal (Fulfilled result)) ->
  js_get result "content" = Normal (VArr id (before ++ item :: rest)) ->
  Forall (fun c => has_type "text" c = Normal false) before ->
  has_type "text" item = Normal true ->
  js_get item "text" = Normal text ->
  exists a' city,
    handleFetchForecast r a = (Normal (Fulfilled tt), a') /\
    app_ui a' =
      app_ui a ++
      [SetLoading true;
       SetForecast (if truthy text then text else VStr "No forecast available");
       SetLoading false] /\
    js_get (UseWidgetResult.props r) "city" = Normal city /\
    hostCalls (app_sys a') =
      hostCalls (app_sys a) ++
      [Call_callTool "get-forecast"
         (VObj (nextId (app_sys a)) [("city", city); ("days", VNum 7)])].
Proof.
  intros E Hav Hm Hf Hcontent Hbefore Hitem Htext.
  rewrite (@render_result _ _ _ _ E) in *.
  destruct (props_readable defaultProps (core s)) as (city & Hcity).
  rewrite (@handleFetchForecast_run _ city a Hav eq_refl Hcity).
  assert (Hfc : forecast_of result =
                Normal (or_else text (VStr "No forecast available"))).
  { unfold forecast_of. rewrite Hcontent. cbn [js_find].
    rewrite (find_first_skips _ (item :: rest) Hbefore).
    cbn [find_first]. rewrite Hitem.
    unfold optional_get. rewrite (has_type_object _ _ Hitem).
    now rewrite Htext. }
  unfold fetch_run. rewrite Hm, Hf, Hfc. cbn [fst snd].
  eexists. exists city. split; [reflexivity |].
  split; [reflexivity |]. split; [exact Hcity | reflexivity].
Qed.

Lemma forecast_is_text_of_first_text_item_witness :
  let item := VObj 72 [("type", VStr "text"); ("text", VStr "Sunny all week")] in
  let link := VObj 73 [("type", VStr "resource_link"); ("uri", VStr "ui://w")] in
  let result := VObj 70 [("content", VArr 71 [link; item; VNull])] in
  let host := weather_host (Some (fun _ _ => Normal (Fulfilled result))) in
  let r := widget_result weather_defaults (core (page (Some host))) in
  let s1 := exec (render (useWidget weather_defaults)) (page (Some host)) in
  let a := {| app_sys := s1; app_ui := [] |} in
  render (useWidget weather_defaults) (page (Some host)) = (Normal r, s1) /\
  Forall (fun c => has_type "text" c = Normal false) [link] /\
  exists a' city,
    handleFetchForecast r a = (Normal (Fulfilled tt), a') /\
    app_ui a' =
      app_ui a ++
      [SetLoading true; SetForecast (VStr "Sunny all week"); SetLoading false] /\
    js_get (UseWidgetResult.props r) "city" = Normal city /\
    hostCalls (app_sys a') =
      hostCalls (app_sys a) ++
      [Call_callTool "get-forecast"
         (VObj (nextId (app_sys a)) [("city", city); ("days", VNum 7)])].
Proof.
  intros item link result host r s1 a.
  assert (E : render (useWidget weather_defaults) (page (Some host)) =
              (Normal r, s1)) by (vm_compute; reflexivity).
  assert (Hb : Forall (fun c => has_type "text" c = Normal false) [link])
    by (repeat constructor).
  assert (Hav : UseWidgetResult.isAvailable r = true) by reflexivity.
  assert (Hm : openai_method WindowOpenAI.callTool (app_sys a) =
               Some (fun _ _ => Normal (Fulfilled result)))
    by (vm_compute; reflexivity).
  split; [exact E |]. split; [exact Hb |].
  exact (@forecast_is_text_of_first_text_item (page (Some host))
           weather_defaults r s1 a
           (fun _ _ => Normal (Fulfilled result)) result 71 [link] item [VNull]
           (VStr "Sunny all week")
           E Hav Hm (fun _ => eq_refl) eq_refl Hb eq_refl eq_refl).
Defined.

(** X13: a result without a usable text.  When the host's [callTool]
    fulfils with a result whose [content] is an array without an item of
    type [text], the forecast is the text [No forecast available]; when
    the result has no [content], reading it fails, and the forecast is
    the error text, with the [TypeError] logged.  [loading] is cleared in
    both cases. *)
Theorem forecast_without_text_item
    (s : Sys) (defaultProps : JsVal) (r : UseWidgetResult.t) (s1 : Sys)
    (a : App) (f : string -> JsVal -> Completion (Promise JsVal))
    (result content : JsVal) :
  render (useWidget defaultProps) s = (Normal r, s1) ->
  UseWidgetResult.isAvailable r = true ->
  openai_method WindowOpenAI.callTool (app_sys a) = Some f ->
  (forall args, f "get-forecast" args = Normal (Fulfilled result)) ->
  js_get result "content" = Normal content ->
  exists a',
    handleFetchForecast r a = (Normal (Fulfilled tt), a') /\
    (forall id elems,
       content = VArr id elems ->
       Forall (fun c => has_type "text" c = Normal false) elems ->
       app_ui a' =
         app_ui a ++
         [SetLoading true; SetForecast (VStr "No forecast available");
          SetLoading false]) /\
    (nullish content = true ->
     exists message,
       app_ui a' =
         app_ui a ++
         [SetLoading true;
          ConsoleError "Failed to fetch forecast:" (TypeError message);
          SetForecast (VStr "Error fetching forecast");
          SetLoading false]).
Proof.
  intros E Hav Hm Hf Hcontent.
  rewrite (@render_result _ _ _ _ E) in *.
  destruct (props_readable defaultProps (core s)) as (city & Hcity).
  rewrite (@handleFetchForecast_run _ city a Hav eq_refl Hcity).
  unfold fetch_run. rewrite Hm, Hf.
  destruct (forecast_of result) as [forecast | e] eqn:Hfc; cbn [fst snd];
    eexists; (split; [reflexivity |]); cbn [app_ui]; split.
  - intros id elems -> Hnone. do 3 f_equal.
    unfold forecast_of in Hfc. rewrite Hcontent in Hfc. cbn [js_find] in Hfc.
    rewrite <- (app_nil_r elems) in Hfc.
    rewrite (find_first_skips _ [] Hnone) in Hfc. cbn in Hfc. congruence.
  - intros Hn. unfold forecast_of in Hfc. rewrite Hcontent in Hfc.
    destruct content; discriminate.
  - intros id elems -> Hnone.
    unfold forecast_of in Hfc. rewrite Hcontent in Hfc. cbn [js_find] in Hfc.
    rewrite <- (app_nil_r elems) in Hfc.
    rewrite (find_first_skips _ [] Hnone) in Hfc. discriminate.
  - intros Hn. unfold forecast_of in Hfc. rewrite Hcontent in Hfc.
    destruct content; try discriminate; cbn in Hfc;
      injection Hfc as <-; eexists; reflexivity.
Qed.

Lemma forecast_without_text_item_witness :
  let link := VObj 73 [("type", VStr "resource_link"); ("uri", VStr "ui://w")] in
  let result := VObj 70 [("content", VArr 71 [link])] in
  let host := weather_host (Some (fun _ _ => Normal (Fulfilled result))) in
  let r := widget_result weather_defaults (core (page (Some host))) in
  let s1 := exec (render (useWidget weather_defaults)) (page (Some host)) in
  let a := {| app_sys := s1; app_ui := [] |} in
  render (useWidget weather_defaults) (page (Some host)) = (Normal r, s1) /\
  exists a',
    handleFetchForecast r a = (Normal (Fulfilled tt), a') /\
    app_ui a' =
      app_ui a ++
      [SetLoading true; SetForecast (VStr "No forecast available");
       SetLoading false].
Proof.
  intros link result host r s1 a.
  assert (E : render (useWidget weather_defaults) (page (Some host)) =
              (Normal r, s1)) by (vm_compute; reflexivity).
  assert (Hb : Forall (fun c => has_type "text" c = Normal false) [link])
    by (repeat constructor).
  assert (Hav : UseWidgetResult.isAvailable r = true) by reflexivity.
  assert (Hm : openai_method WindowOpenAI.callTool (app_sys a) =
               Some (fun _ _ => Normal (Fulfilled result)))
    by (vm_compute; reflexivity).
  split; [exact E |].
  destruct (@forecast_without_text_item (page (Some host))
              weather_defaults r s1 a
              (fun _ _ => Normal (Fulfilled result)) result (VArr 71 [link])
              E Hav Hm (fun _ => eq_refl) eq_refl)
    as (a' & H & Hnone & _).
  exists a'. split; [exact H |].
  exact (Hnone 71 [link] eq_refl Hb).
Defined.

(* ================================================================== *)
(** * The manual test: the resource link of a tool result *)
(* ================================================================== *)

(** X14: [extractResourceUri] returns the [uri] of the first item of
    type [resource_link] of the result's [content], whatever comes after
    it; a result whose [content] is [undefined] or [null] gives
    [undefined] and does not throw, and so does a [content] without an
    item of that type. *)
Theorem extractResourceUri_reads_first_link
    (result content : JsVal) :
  js_get result "content" = Normal content ->
  (nullish content = true -> extractResourceUri result = Normal VUndefined) /\
  (forall id elems,
     content = VArr id elems ->
     Forall (fun c => has_type "resource_link" c = Normal false) elems ->
     extractResourceUri result = Normal VUndefined) /\
  (forall id before item rest,
     content = VArr id (before ++ item :: rest) ->
     Forall (fun c => has_type "resource_link" c = Normal false) before ->
     has_type "resource_link" item = Normal true ->
     extractResourceUri result = js_get item "uri").
Proof.
  intros Hcontent. unfold extractResourceUri. rewrite Hcontent.
  split; [| split].
  - now intros ->.
  - intros id elems -> Hnone. cbn [nullish is_undefined is_null orb js_find].
    rewrite <- (app_nil_r elems).
    now rewrite (find_first_skips _ [] Hnone).
  - intros id before item rest -> Hbefore Hitem.
    cbn [nullish is_undefined is_null orb js_find].
    rewrite (find_first_skips _ (item :: rest) Hbefore).
    cbn [find_first]. rewrite Hitem.
    unfold optional_get. now rewrite (has_type_object _ _ Hitem).
Qed.

Lemma extractResourceUri_reads_first_link_witness :
  let text := VObj 72 [("type", VStr "text"); ("text", VStr "Weather")] in
  let link := VObj 73 [("type", VStr "resource_link"); ("uri", VStr "ui://w")] in
  extractResourceUri (VObj 70 [("content", VArr 71 [text; link; VNull])]) =
  Normal (VStr "ui://w").
Proof.
  intros text link.
  assert (Hb : Forall (fun c => has_type "resource_link" c = Normal false)
                 [text])
    by (repeat constructor).
  exact (proj2 (proj2
    (@extractResourceUri_reads_first_link
       (VObj 70 [("content", VArr 71 [text; link; VNull])])
       (VArr 71 [text; link; VNull]) eq_refl))
    71 [text] link [VNull] eq_refl Hb eq_refl).
Defined.

(* ================================================================== *)
(** * The counter widget's script and the hook *)
(* ================================================================== *)

(** X15: the script's theme and the hook's.  On the same page, the
    theme the counter widget's script computes with [||] is the theme
    [useWidget] returns exactly when the host's [theme] is [undefined],
    [null] or truthy: for a [theme] that is falsy and not nullish (the
    empty string, [0], [false]) the script falls back to [light] and the
    hook passes the value on. *)
Theorem script_theme_agrees_with_hook
    (s : Sys) (w : Window) (defaultProps : JsVal) (r : UseWidgetResult.t)
    (s1 : Sys) :
  window s = Some w ->
  render (useWidget defaultProps) s = (Normal r, s1) ->
  let hostTheme :=
    match openai w with
    | Some o => WindowOpenAI.theme o
    | None => VUndefined
    end in
  script_theme w = UseWidgetResult.theme r <->
  nullish hostTheme = true \/ truthy hostTheme = true.
Proof.
  intros Hw E hostTheme. rewrite (@render_result _ _ _ _ E).
  cbn [widget_result UseWidgetResult.theme].
  assert (Hs : snapshot (core s) Ktheme = hostTheme).
  { unfold snapshot, hostTheme. cbn [core c_openai]. unfold window_openai.
    rewrite Hw. now destruct (openai w). }
  rewrite Hs. unfold script_theme. fold hostTheme.
  unfold or_else, coalesce. clearbody hostTheme.
  destruct hostTheme as [| | [|] | n | t | |]; cbn;
    try destruct (Z.eqb n 0);
    try (destruct (String.eqb_spec t "") as [-> |]); cbn;
    (split; [intros H | intros [H | H]]); try discriminate; auto.
Qed.

Lemma script_theme_agrees_with_hook_witness :
  let host :=
    WindowOpenAI.mk (VStr "") VUndefined VUndefined VUndefined VUndefined
      VUndefined None None None None None in
  let w := {| openai := Some host; listeners := [] |} in
  let r := widget_result VUndefined (core (page (Some host))) in
  script_theme w = VStr "light" /\
  UseWidgetResult.theme r = VStr "" /\
  (script_theme w = UseWidgetResult.theme r <->
   nullish (VStr "") = true \/ truthy (VStr "") = true).
Proof.
  intros host w r.
  assert (E : render (useWidget VUndefined) (page (Some host)) =
              (Normal r, exec (render (useWidget VUndefined))
                           (page (Some host))))
    by (vm_compute; reflexivity).
  split; [reflexivity |]. split; [reflexivity |].
  exact (@script_theme_agrees_with_hook (page (Some host)) w VUndefined r _
           eq_refl E).
Defined.
